(** * QuPath project extractor: a model of [main.py]

    The program reads a QuPath [.qpdata] container (version header, JSON
    metadata, Java serialized hierarchy), walks the decoded object for
    annotation-like attributes, and collects one entry per image of a project.

    Conventions of the model:
    - [bytes] values are lists of [byte]; Python [int]s are [Z] (so that the
      [-1] of [bytes.find] and the tests [> 0] read as in the source);
    - a Python [str] is a [string] whose characters are code points below 256;
    - dictionaries are insertion-ordered association lists;
    - what the program calls but does not define (codecs, [json], [javaobj],
      the builtin [str]) is an interface, class [Runtime];
    - [get_qupath_info] is modelled whole; the assignment [classes[k] = v]
      under a key of any type is a parameter of it;
    - writes to standard output are not modelled. *)

From Stdlib Require Import List String Ascii ZArith Lia Bool.
From Stdlib Require Import Strings.Byte DecimalString.
Import ListNotations.

Set Warnings "-register-all".
Local Open Scope string_scope.
Local Open Scope Z_scope.

(** ** Byte strings *)

Definition bytes := list byte.

(** A [bytes] literal with the given ASCII text. *)
Definition b (s : string) : bytes := list_byte_of_string s.

(** [data.startswith(prefix)] *)
Fixpoint startswith (data prefix : bytes) {struct prefix} : bool :=
  match prefix, data with
  | [], _ => true
  | p :: ps, d :: ds => Byte.eqb p d && startswith ds ps
  | _ :: _, [] => false
  end.

(** Left-to-right scan behind [bytes.find]: [data] is the part of the buffer
    that starts at index [i]. *)
Fixpoint find_at (sub data : bytes) (i : nat) {struct data} : option nat :=
  if startswith data sub then Some i
  else match data with
       | [] => None
       | _ :: rest => find_at sub rest (S i)
       end.

(** [data.find(sub, start)] for [start >= 0]: the lowest index [i >= start]
    with [data[i:i+len(sub)] == sub], or [-1]. *)
Definition find (data sub : bytes) (start : Z) : Z :=
  if Z.of_nat (List.length data) <? start then -1
  else match find_at sub (skipn (Z.to_nat start) data) (Z.to_nat start) with
       | Some i => Z.of_nat i
       | None => -1
       end.

(** [data[lo:hi]] for [lo, hi >= 0]. *)
Definition slice {A : Type} (data : list A) (lo hi : Z) : list A :=
  firstn (Z.to_nat hi - Z.to_nat lo) (skipn (Z.to_nat lo) data).

(** The character class [[\x20-\x7e]]. *)
Definition printable (c : byte) : bool :=
  (32 <=? Byte.to_nat c)%nat && (Byte.to_nat c <=? 126)%nat.

(** A finished run is a match of [[\x20-\x7e]{10,}] when it has ten bytes. *)
Definition flush_run (run : bytes) : list bytes :=
  if (10 <=? List.length run)%nat then [rev run] else [].

(** [re.findall(b'[\x20-\x7e]{10,}', data)]: the maximal runs of printable
    bytes that are at least ten long, left to right; [run] holds the current
    run, last byte first. *)
Fixpoint printable_runs (data run : bytes) : list bytes :=
  match data with
  | [] => flush_run run
  | c :: rest =>
      if printable c then printable_runs rest (c :: run)
      else (flush_run run ++ printable_runs rest [])%list
  end.

Definition findall_printable (data : bytes) : list bytes := printable_runs data [].

(** [t.decode('ascii', errors='ignore')] on bytes below 128 (every byte of a
    match of the pattern above is): bytes at or above 128 are dropped. *)
Definition decode_ascii_ignore (t : bytes) : string :=
  string_of_list_byte (filter (fun c => (Byte.to_nat c <? 128)%nat) t).

(** ** Strings *)

(** [s[:n]] *)
Fixpoint take (n : nat) (s : string) : string :=
  match n, s with
  | S n', String c s' => String c (take n' s')
  | _, _ => EmptyString
  end.

(** [str.lower] on one code point below 256: A-Z, and the Latin-1 capitals
    U+00C0-U+00DE except the multiplication sign U+00D7, move up by 32. *)
Definition lower_char (c : ascii) : ascii :=
  let n := nat_of_ascii c in
  if ((65 <=? n) && (n <=? 90) ||
      (192 <=? n) && (n <=? 222) && negb (n =? 215))%nat
  then ascii_of_nat (n + 32) else c.

Fixpoint lower (s : string) : string :=
  match s with
  | EmptyString => EmptyString
  | String c s' => String (lower_char c) (lower s')
  end.

(** [sub in s] for two strings: [sub] occurs in [s] as a substring. *)
Fixpoint contains (sub s : string) : bool :=
  String.prefix sub s ||
  match s with
  | EmptyString => false
  | String _ s' => contains sub s'
  end.

(** [s.startswith('/')] and [s.endswith('/')], for [os.path.join]. *)
Definition starts_with_slash (s : string) : bool := String.prefix "/" s.

Fixpoint ends_with_slash (s : string) : bool :=
  match s with
  | EmptyString => false
  | String c EmptyString => Ascii.eqb c "/"
  | String _ s' => ends_with_slash s'
  end.

(** [os.path.join(a, p)] on POSIX. *)
Definition path_join (a p : string) : string :=
  if starts_with_slash p then p
  else if String.eqb a "" || ends_with_slash a then a ++ p
  else a ++ "/" ++ p.

(** ** Python values *)

(** The values the program handles: what [json.loads] and [javaobj.load]
    return and what the program builds from them.  A float is kept as its
    IEEE-754 bit pattern; an object is its class name and its [__dict__]. *)
Inductive pyval : Type :=
| PNone
| PBool (v : bool)
| PInt (z : Z)
| PFloat (bits : Z)
| PStr (s : string)
| PList (items : list pyval)
| PDict (items : list (pyval * pyval))
| PObj (cls : string) (attrs : list (string * pyval)).

(** A dictionary with [str] keys, in insertion order. *)
Definition dict (V : Type) := list (string * V).

Fixpoint dict_get {V : Type} (d : dict V) (k : string) : option V :=
  match d with
  | [] => None
  | (k', v) :: d' => if String.eqb k' k then Some v else dict_get d' k
  end.

(** [d[k] = v]: an existing key keeps its place, a new key goes last. *)
Fixpoint dict_set {V : Type} (d : dict V) (k : string) (v : V) : dict V :=
  match d with
  | [] => [(k, v)]
  | (k', v') :: d' =>
      if String.eqb k' k then (k, v) :: d' else (k', v') :: dict_set d' k v
  end.

Definition dict_has {V : Type} (d : dict V) (k : string) : bool :=
  match dict_get d k with Some _ => true | None => false end.

(** A [str]-keyed dictionary as a value. *)
Definition as_pydict (d : dict pyval) : pyval :=
  PDict (map (fun kv => (PStr (fst kv), snd kv)) d).

(** [v == s] for a string [s]. *)
Definition eq_str (v : pyval) (s : string) : bool :=
  match v with PStr t => String.eqb t s | _ => false end.

(** Lookup of a string key in the items of a [dict]. *)
Fixpoint items_get (items : list (pyval * pyval)) (k : string) : option pyval :=
  match items with
  | [] => None
  | (k', v) :: rest => if eq_str k' k then Some v else items_get rest k
  end.

(** ** Exceptions *)

Inductive exn : Type :=
| FileNotFoundError (msg : string)
| IsADirectoryError (path : string)
| UnboundLocalError (name : string)
| TypeError (what : string)
| AttributeError (what : string)
| KeyError (key : string)
| JSONDecodeError (msg : string)
| ValueError (msg : string)
| RecursionError (msg : string)
| LibraryError (msg : string).

(** [isinstance(e, json.JSONDecodeError)].  [JSONDecodeError] is a subclass of
    [ValueError]; [ValueError] here is one that is not of that subclass. *)
Definition is_json_decode_error (e : exn) : bool :=
  match e with JSONDecodeError _ => true | _ => false end.

(** What [json.loads] raises on a text: [JSONDecodeError] on one that is not
    JSON, [ValueError] on an integer beyond the digit limit of the
    interpreter, [RecursionError] on nesting beyond its recursion limit. *)
Definition json_error (e : exn) : bool :=
  match e with
  | JSONDecodeError _ | ValueError _ | RecursionError _ => true
  | _ => false
  end.

Inductive res (A : Type) : Type :=
| Ok (a : A)
| Raise (e : exn).
Arguments Ok {A} a.
Arguments Raise {A} e.

(** ** Statements: state passing with exceptions

    A statement runs on a state of mutable objects and either completes or
    raises; what it has written before raising stays written. *)
Definition M (S A : Type) : Type := S -> res A * S.

Definition ret {S A : Type} (a : A) : M S A := fun s => (Ok a, s).

Definition bind {S A B : Type} (m : M S A) (k : A -> M S B) : M S B :=
  fun s => match m s with
           | (Ok a, s') => k a s'
           | (Raise e, s') => (Raise e, s')
           end.

Definition raise {S A : Type} (e : exn) : M S A := fun s => (Raise e, s).

Definition lift {S A : Type} (r : res A) : M S A := fun s => (r, s).

Definition modify {S : Type} (f : S -> S) : M S unit := fun s => (Ok tt, f s).

Definition get {S : Type} : M S S := fun s => (Ok s, s).

(** [try: body  except Exception as e: handler(e)] *)
Definition try_except {S A : Type} (body : M S A) (handler : exn -> M S A) : M S A :=
  fun s => match body s with
           | (Ok a, s') => (Ok a, s')
           | (Raise e, s') => handler e s'
           end.

(** [try: body  except cls as e: handler(e)]: an exception that is not of
    class [cls] passes through. *)
Definition try_except_of {S A : Type} (is_cls : exn -> bool) (body : M S A)
    (handler : exn -> M S A) : M S A :=
  fun s => match body s with
           | (Ok a, s') => (Ok a, s')
           | (Raise e, s') => if is_cls e then handler e s' else (Raise e, s')
           end.

(** [for x in xs: body(x)] *)
Fixpoint for_each {S A : Type} (xs : list A) (body : A -> M S unit) : M S unit :=
  match xs with
  | [] => ret tt
  | x :: rest => bind (body x) (fun _ => for_each rest body)
  end.

Declare Scope py_scope.
Delimit Scope py_scope with py.
Notation "x <- m ;; k" := (bind m (fun x => k))
  (at level 61, m at next level, right associativity) : py_scope.
Notation "m ;; k" := (bind m (fun _ => k))
  (at level 61, right associativity) : py_scope.
Local Open Scope py_scope.

(** ** Attribute access, iteration, membership *)

(** [d.get(k)] and [d[k]] on a dictionary of values. *)
Definition dict_get_or_none (d : dict pyval) (k : string) : pyval :=
  match dict_get d k with Some v => v | None => PNone end.

Definition dict_index (d : dict pyval) (k : string) : res pyval :=
  match dict_get d k with Some v => Ok v | None => Raise (KeyError k) end.

(** [hasattr(o, '__dict__')] *)
Definition has_dict (o : pyval) : bool :=
  match o with PObj _ _ => true | _ => false end.

(** [o.__dict__] *)
Definition obj_dict (o : pyval) : dict pyval :=
  match o with PObj _ attrs => attrs | _ => [] end.

(** [hasattr(o, name)] for a data attribute. *)
Definition hasattr (o : pyval) (name : string) : bool :=
  dict_has (obj_dict o) name.

(** [o.name] *)
Definition getattr (o : pyval) (name : string) : res pyval :=
  match dict_get (obj_dict o) name with
  | Some v => Ok v
  | None => Raise (AttributeError name)
  end.

(** The items a [for] loop over [v] sees. *)
Definition py_iter (v : pyval) : res (list pyval) :=
  match v with
  | PList items => Ok items
  | PDict items => Ok (map fst items)
  | PStr s => Ok (map (fun c => PStr (String c EmptyString)) (list_ascii_of_string s))
  | _ => Raise (TypeError "object is not iterable")
  end.

(** [v.items()] *)
Definition py_items (v : pyval) : res (list (pyval * pyval)) :=
  match v with
  | PDict items => Ok items
  | PObj _ attrs =>
      if dict_has attrs "items" then Raise (TypeError "object is not callable")
      else Raise (AttributeError "items")
  | _ => Raise (AttributeError "items")
  end.

(** [v.get(k, default)] for a string key. *)
Definition py_get_or (v : pyval) (k : string) (default : pyval) : res pyval :=
  match v with
  | PDict items =>
      Ok (match items_get items k with Some x => x | None => default end)
  | PObj _ attrs =>
      if dict_has attrs "get" then Raise (TypeError "object is not callable")
      else Raise (AttributeError "get")
  | _ => Raise (AttributeError "get")
  end.

(** [v.get(k)] *)
Definition py_get (v : pyval) (k : string) : res pyval := py_get_or v k PNone.

(** [k in v] for a string [k]. *)
Definition py_in (k : string) (v : pyval) : res bool :=
  match v with
  | PDict items =>
      Ok (match items_get items k with Some _ => true | None => false end)
  | PList items => Ok (existsb (fun x => eq_str x k) items)
  | PStr s => Ok (contains k s)
  | _ => Raise (TypeError "argument is not iterable")
  end.

(** [v[k]] for a string [k]. *)
Definition py_getitem (v : pyval) (k : string) : res pyval :=
  match v with
  | PDict items =>
      match items_get items k with
      | Some x => Ok x
      | None => Raise (KeyError k)
      end
  | PList _ => Raise (TypeError "list indices must be integers or slices")
  | PStr _ => Raise (TypeError "string indices must be integers")
  | _ => Raise (TypeError "object is not subscriptable")
  end.

(** Truth value in a condition. *)
Definition truthy (v : pyval) : bool :=
  match v with
  | PNone => false
  | PBool t => t
  | PInt z => negb (z =? 0)
  | PFloat bits => negb (bits =? 0) && negb (bits =? 2 ^ 63)
  | PStr s => negb (String.eqb s "")
  | PList items => match items with [] => false | _ => true end
  | PDict items => match items with [] => false | _ => true end
  | PObj _ _ => true
  end.

(** [v is not None] *)
Definition is_not_none (v : pyval) : bool :=
  match v with PNone => false | _ => true end.

(** ** What the program imports

    The codecs, [json], [javaobj.v2] and the builtin [str] are not part of the
    program.  [javaobj_load data pos] is [javaobj.load(f)] on
    the open file [f] with contents [data] after [f.seek(pos)]; [json_loads]
    is [json.loads] on a [str], which raises nothing but the exceptions of
    [json_error]. *)
Class Runtime : Type := {
  decode_utf8_ignore : bytes -> string;
  json_loads : string -> res pyval;
  json_load : bytes -> res pyval;
  javaobj_load : bytes -> Z -> res pyval;
  py_str : pyval -> string;
  exn_str : exn -> string;
  json_loads_raises :
    forall text e, json_loads text = Raise e -> json_error e = true
}.

(** [str(type(v))]; the class of an object is kept with its module path. *)
Definition py_type (v : pyval) : string :=
  "<class '" ++
  match v with
  | PNone => "NoneType"
  | PBool _ => "bool"
  | PInt _ => "int"
  | PFloat _ => "float"
  | PStr _ => "str"
  | PList _ => "list"
  | PDict _ => "dict"
  | PObj cls _ => cls
  end ++ "'>".

(** ** The file system *)

Inductive node : Type :=
| File (content : bytes)
| Dir.

Definition filesystem := string -> option node.

(** [os.path.exists(p)] *)
Definition path_exists (fs : filesystem) (p : string) : bool :=
  match fs p with Some _ => true | None => false end.

(** [open(p, mode)] followed by a read of the whole file. *)
Definition read_file (fs : filesystem) (p : string) : res bytes :=
  match fs p with
  | Some (File content) => Ok content
  | Some Dir => Raise (IsADirectoryError p)
  | None => Raise (FileNotFoundError p)
  end.

(** ** [parse_qpdata] *)

(** The objects [parse_qpdata] writes to: its [result] dictionary, and the
    open file, of which the model keeps the offsets at which it was handed to
    [javaobj.load], oldest first. *)
Record frame : Type := {
  result : dict pyval;
  loads : list Z
}.

(** [b'Data file version'] *)
Definition version_prefix : bytes := b "Data file version".

(** [b'{"dataVersion"'] *)
Definition json_pattern : bytes := ([x7b; x22] ++ b "dataVersion" ++ [x22])%list.

(** [b'}sr '] *)
Definition stream_marker : bytes := b "}sr ".

Section Program.
Context {rt : Runtime}.

(** [result[k] = v] *)
Definition set_result (k : string) (v : pyval) : M frame unit :=
  modify (fun s => {| result := dict_set (result s) k v; loads := loads s |}).

(** [f.seek(pos)] then [javaobj.load(f)] *)
Definition load_at (data : bytes) (pos : Z) : M frame pyval :=
  fun s => (javaobj_load data pos, {| result := result s; loads := (loads s ++ [pos])%list |}).

(** Step 1 of [parse_qpdata]: the version header. *)
Definition read_version (data : bytes) : M frame unit :=
  if startswith data version_prefix then
    let version_end := find data [x74] 19 in
    if version_end >? 0 then
      set_result "version" (PStr (decode_utf8_ignore (slice data 19 version_end)))
    else ret tt
  else ret tt.

(** Step 2: the JSON block.  The value returned is the local [json_end],
    [None] while it has not been assigned.  Only [JSONDecodeError] is caught:
    any other exception of [json.loads] ends the parse. *)
Definition read_metadata (data : bytes) : M frame (option Z) :=
  let json_start := find data json_pattern 0 in
  if json_start >? 0 then
    let json_end := find data stream_marker json_start in
    if json_end >? 0 then
      let json_end := json_end + 1 in
      let json_str := decode_utf8_ignore (slice data json_start json_end) in
      try_except_of is_json_decode_error
        (metadata <- lift (json_loads json_str) ;;
         set_result "metadata" metadata)
        (fun _ => set_result "metadata_raw" (PStr (take 500 json_str))) ;;
      ret (Some json_end)
    else ret (Some json_end)
  else ret None.

(** Step 3: the first thirty readable strings. *)
Definition read_raw_strings (data : bytes) : M frame unit :=
  let text_matches := findall_printable data in
  set_result "raw_strings"
    (PList (map (fun t => PStr (decode_ascii_ignore t)) (firstn 30 text_matches))).

(** Step 4: the Java objects after the JSON.  Reading [json_end] while it is
    unassigned raises; an exception of the library is dropped. *)
Definition read_hierarchy (data : bytes) (json_end : option Z) : M frame unit :=
  match json_end with
  | None => raise (UnboundLocalError "json_end")
  | Some json_end =>
      if negb (json_end =? 0) && (json_end >? 0) then
        let java_start := json_end + 2 in
        try_except
          (pobj <- load_at data java_start ;;
           set_result "hierarchy" pobj)
          (fun _ => ret tt)
      else ret tt
  end.

(** The body of the [with open(...)] block. *)
Definition parse_body (data : bytes) : M frame unit :=
  read_version data ;;
  json_end <- read_metadata data ;;
  read_raw_strings data ;;
  read_hierarchy data json_end.

(** The [result] dictionary as first built. *)
Definition empty_result : dict pyval :=
  [("version", PNone); ("metadata", PNone); ("hierarchy", PNone);
   ("raw_strings", PList [])].

Definition start_frame : frame := {| result := empty_result; loads := [] |}.

(** A run of [parse_qpdata] with the objects it wrote to at its end. *)
Definition parse_run (fs : filesystem) (file_path : string) : res unit * frame :=
  if negb (path_exists fs file_path) then
    (Raise (FileNotFoundError ("File not found: " ++ file_path)), start_frame)
  else
    match read_file fs file_path with
    | Ok data => parse_body data start_frame
    | Raise e => (Raise e, start_frame)
    end.

Definition parse_qpdata (fs : filesystem) (file_path : string) : res (dict pyval) :=
  match parse_run fs file_path with
  | (Ok _, s) => Ok (result s)
  | (Raise e, _) => Raise e
  end.

(** ** [extract_annotation_info] and [extract_annotations] *)

Record info : Type := {
  type : string;
  attributes : dict string
}.

Definition keywords : list string :=
  ["name"; "class"; "type"; "roi"; "geometry"; "measurement"].

(** [any(keyword in key.lower() for keyword in [...])] *)
Definition is_property (key : string) : bool :=
  existsb (fun keyword => contains keyword (lower key)) keywords.

(** One turn of the loop over [ann_obj.__dict__.items()]. *)
Definition store_property (attrs : dict string) (item : string * pyval) : dict string :=
  let (key, value) := item in
  if is_property key then dict_set attrs key (take 200 (py_str value)) else attrs.

Definition extract_annotation_info (ann_obj : pyval) : info :=
  {| type := py_type ann_obj;
     attributes :=
       if has_dict ann_obj then fold_left store_property (obj_dict ann_obj) []
       else [] |}.

(** [annotations.append(extract_annotation_info(x))] *)
Definition append_info (x : pyval) : M (list info) unit :=
  modify (fun annotations => (annotations ++ [extract_annotation_info x])%list).

(** The [try] block of [extract_annotations]. *)
Definition search_annotations (qpdata_obj : pyval) : M (list info) unit :=
  (if hasattr qpdata_obj "annotations" then
     anns <- lift (getattr qpdata_obj "annotations") ;;
     items <- lift (py_iter anns) ;;
     for_each items append_info
   else if has_dict qpdata_obj then
     for_each (obj_dict qpdata_obj) (fun item =>
       let (key, value) := item in
       if contains "pathobject" (lower key) || contains "annotation" (lower key) then
         match value with
         | PList items => for_each items append_info
         | _ => append_info value
         end
       else ret tt)
   else ret tt) ;;
  if hasattr qpdata_obj "map" then
    m <- lift (getattr qpdata_obj "map") ;;
    items <- lift (py_items m) ;;
    for_each items (fun item =>
      let (key, value) := item in
      if contains "annotation" (lower (py_str key)) then append_info value
      else ret tt)
  else ret tt.

(** The statements after [annotations = []]; the state is the list
    [annotations], the value is the list returned. *)
Definition extract_annotations_body (qpdata_obj : pyval) : M (list info) (list info) :=
  match qpdata_obj with
  | PNone => get
  | _ => try_except (search_annotations qpdata_obj) (fun _ => ret tt) ;; get
  end.

Definition extract_annotations (qpdata_obj : pyval) : res (list info) :=
  fst (extract_annotations_body qpdata_obj []).

(** ** The image loop of [get_qupath_info] *)

(** [str(e)]: the message the program itself gave, else the interpreter's. *)
Definition str_exn (e : exn) : string :=
  match e with
  | FileNotFoundError msg => msg
  | _ => exn_str e
  end.

(** [image_info[k] = v] *)
Definition set_info (k : string) (v : pyval) : M (dict pyval) unit :=
  modify (fun image_info => dict_set image_info k v).

(** What the verbose summary report reads of [summary]. *)
Definition show_summary (summary : pyval) : M (dict pyval) unit :=
  lift (py_get summary "imageType") ;;
  has_hierarchy <- lift (py_in "hierarchy" summary) ;;
  if has_hierarchy then
    hier <- lift (py_getitem summary "hierarchy") ;;
    lift (py_get hier "nObjects") ;;
    lift (py_get hier "objectTypeCounts") ;;
    lift (py_get hier "annotationClassificationCounts") ;;
    lift (py_get hier "detectionClassificationCounts") ;;
    ret tt
  else ret tt.

(** What the verbose image report reads of [img_meta]. *)
Definition show_image (img_meta : pyval) : M (dict pyval) unit :=
  lift (py_get img_meta "name") ;;
  lift (py_get img_meta "width") ;;
  lift (py_get img_meta "height") ;;
  lift (py_get img_meta "magnification") ;;
  lift (py_get img_meta "pixelType") ;;
  lift (py_get img_meta "channelType") ;;
  ret tt.

(** The body of the [try] around [parse_qpdata]. *)
Definition record_parse (fs : filesystem) (classes : pyval) (verbose : bool)
    (idx : Z) (image_data_path_qpdata : string) : M (dict pyval) unit :=
  parsed_data <- lift (parse_qpdata fs image_data_path_qpdata) ;;
  (if ((idx =? 1) || verbose) && truthy (dict_get_or_none parsed_data "metadata") then
     metadata <- lift (dict_index parsed_data "metadata") ;;
     (if verbose then
        lift (py_get metadata "qupathVersion") ;;
        lift (py_get metadata "dataVersion") ;;
        ret tt
      else ret tt) ;;
     has_server <- lift (py_in "server" metadata) ;;
     (if has_server then
        server <- lift (py_getitem metadata "server") ;;
        has_metadata <- lift (py_in "metadata" server) ;;
        if has_metadata then
          img_meta <- lift (py_getitem server "metadata") ;;
          if verbose then show_image img_meta else ret tt
        else ret tt
      else ret tt) ;;
     set_info "metadata" metadata
   else ret tt) ;;
  set_info "parsed_data"
    (as_pydict
       [("has_metadata", PBool (is_not_none (dict_get_or_none parsed_data "metadata")));
        ("has_hierarchy", PBool (is_not_none (dict_get_or_none parsed_data "hierarchy")));
        ("version", dict_get_or_none parsed_data "version")]) ;;
  set_info "classes" classes.

(** One turn of the loop over [images]; the state is [image_info]. *)
Definition image_entry (fs : filesystem) (data_path : string) (classes : pyval)
    (verbose : bool) (idx : Z) (image : pyval) : M (dict pyval) unit :=
  has_builder <- lift (py_in "serverBuilder" image) ;;
  (if has_builder then
     server_builder <- lift (py_getitem image "serverBuilder") ;;
     uri <- lift (py_get_or server_builder "uri" (PStr "Unknown")) ;;
     set_info "uri" uri
   else ret tt) ;;
  has_id <- lift (py_in "entryID" image) ;;
  if has_id then
    entryID <- lift (py_getitem image "entryID") ;;
    set_info "entryID" entryID ;;
    let image_data_path := path_join data_path (py_str entryID) in
    if path_exists fs image_data_path then
      let summary_path := path_join image_data_path "summary.json" in
      (if path_exists fs summary_path then
         content <- lift (read_file fs summary_path) ;;
         summary <- lift (json_load content) ;;
         set_info "summary" summary ;;
         if verbose then show_summary summary else ret tt
       else ret tt) ;;
      let image_data_path_qpdata := path_join image_data_path "data.qpdata" in
      set_info "data_path" (PStr image_data_path_qpdata) ;;
      try_except
        (record_parse fs classes verbose idx image_data_path_qpdata)
        (fun e => set_info "error" (PStr (str_exn e)))
    else ret tt
  else ret tt.

(** [for idx, image in enumerate(images, idx): ...; image_infos.append(image_info)]:
    the loop of [get_qupath_info], on the [data_path], [classes] and [images]
    that the lines before it computed; the state is [image_infos]. *)
Fixpoint get_qupath_info_loop (fs : filesystem) (data_path : string) (classes : pyval)
    (verbose : bool) (idx : Z) (images : list pyval) : M (list (dict pyval)) unit :=
  match images with
  | [] => ret tt
  | image :: rest =>
      (fun image_infos =>
         match image_entry fs data_path classes verbose idx image [] with
         | (Ok _, image_info) => (Ok tt, (image_infos ++ [image_info])%list)
         | (Raise e, _) => (Raise e, image_infos)
         end) ;;
      get_qupath_info_loop fs data_path classes verbose (idx + 1) rest
  end.

End Program.

(** ** [get_qupath_info] *)

(** [len(v)] *)
Definition py_len (v : pyval) : res Z :=
  match v with
  | PList items => Ok (Z.of_nat (List.length items))
  | PDict items => Ok (Z.of_nat (List.length items))
  | PStr s => Ok (Z.of_nat (String.length s))
  | _ => Raise (TypeError "object has no len()")
  end.

Section Project.
Context {rt : Runtime}.

(** [d[k] = v] on the items of a dictionary, for a key of any type: the
    builtin compares keys by hash and [==] and raises [TypeError] on a key
    that cannot be hashed. *)
Variable dict_setitem :
  list (pyval * pyval) -> pyval -> pyval -> res (list (pyval * pyval)).

(** [classes[cls["name"]] = cls["color"]]: the value is read before the key. *)
Definition add_class (cls : pyval) : M (list (pyval * pyval)) unit :=
  color <- lift (py_getitem cls "color") ;;
  name <- lift (py_getitem cls "name") ;;
  fun classes =>
    match dict_setitem classes name color with
    | Ok classes' => (Ok tt, classes')
    | Raise e => (Raise e, classes)
    end.

(** The class legend: [classes] after the lines that read [classes.json]. *)
Definition load_classes (fs : filesystem) (classifiers_path : string) :
    M (list (pyval * pyval)) unit :=
  if path_exists fs classifiers_path then
    content <- lift (read_file fs classifiers_path) ;;
    class_data <- lift (json_load content) ;;
    path_classes <- lift (py_get_or class_data "pathClasses" (PList [])) ;;
    items <- lift (py_iter path_classes) ;;
    for_each items add_class
  else ret tt.

Definition get_qupath_info (fs : filesystem) (path : string) (verbose : bool) :
    res (list (dict pyval)) :=
  let f := path_join path "project.qpproj" in
  let data_path := path_join path "data" in
  let classifiers_path := path_join (path_join path "classifiers") "classes.json" in
  match load_classes fs classifiers_path [] with
  | (Raise e, _) => Raise e
  | (Ok _, classes) =>
      match read_file fs f with
      | Raise e => Raise e
      | Ok content =>
          match json_load content with
          | Raise e => Raise e
          | Ok data =>
              match py_get_or data "images" (PList []) with
              | Raise e => Raise e
              | Ok images =>
                  match py_len images, py_iter images with
                  | Raise e, _ => Raise e
                  | Ok _, Raise e => Raise e
                  | Ok total_images, Ok items =>
                      match get_qupath_info_loop fs data_path (PDict classes)
                              verbose 1 items [] with
                      | (Ok _, image_infos) => Ok image_infos
                      | (Raise e, _) => Raise e
                      end
                  end
              end
          end
      end
  end.

End Project.

(** ** A reference decoder and runtime for the examples *)

Inductive ProtocolError : Type :=
| BadMagic
| Desync (offset : nat)
| Unsupported (tag : byte).

Inductive GenericValue : Type :=
| Null
| StringVal (s : string).

(** [n] bytes of [buf] from [off]; running past the end of the buffer is a
    desync at the buffer length. *)
Definition read_n (buf : bytes) (off n : nat) : ProtocolError + bytes :=
  if (off + n <=? List.length buf)%nat then inr (firstn n (skipn off buf))
  else inl (Desync (List.length buf)).

(** A big-endian length. *)
Definition be_nat (bs : bytes) : nat :=
  fold_left (fun acc x => (acc * 256 + Byte.to_nat x)%nat) bs 0%nat.

(** A string body: a length of [width] bytes, then that many bytes of text. *)
Definition decode_string (buf : bytes) (off width : nat) : ProtocolError + GenericValue :=
  match read_n buf off width with
  | inl e => inl e
  | inr len =>
      match read_n buf (off + width) (be_nat len) with
      | inl e => inl e
      | inr text => inr (StringVal (string_of_list_byte text))
      end
  end.

(** Modelled from the spec: the ObjectStreamDecoder of section 4.2 on the
    stream preamble (two magic bytes, a two-byte version, a mismatch being
    [BadMagic]), the null marker and the short and long string markers, with
    the truncation rule of section 8 (input that ends early, or a string length
    beyond the buffer, is [Desync] at the buffer length).  The byte values are
    those of the Java serialization protocol.  Any other tag is answered
    [Unsupported]: the class, object and array markers are not modelled. *)
Definition decode_stream (buf : bytes) : ProtocolError + GenericValue :=
  match read_n buf 0 2 with
  | inl e => inl e
  | inr magic =>
      if negb (startswith magic [xac; xed]) then inl BadMagic else
      match read_n buf 2 2 with
      | inl e => inl e
      | inr version =>
          if negb (startswith version [x00; x05]) then inl BadMagic else
          match read_n buf 4 1 with
          | inl e => inl e
          | inr [x70] => inr Null
          | inr [x74] => decode_string buf 5 2
          | inr [x7c] => decode_string buf 5 8
          | inr (tag :: _) => inl (Unsupported tag)
          | inr [] => inl (Desync (List.length buf))
          end
      end
  end.

Definition protocol_error_text (e : ProtocolError) : string :=
  match e with
  | BadMagic => "BadMagic"
  | Desync _ => "Desync"
  | Unsupported _ => "Unsupported"
  end.

(** The text [{"dataVersion":1}] and the value [json.loads] gives for it. *)
Definition sample_json_text : string := string_of_list_byte (json_pattern ++ b ":1}")%list.

Definition sample_json_value : pyval := PDict [(PStr "dataVersion", PInt 1)].

(** The digits 0-9. *)
Definition is_digit (c : ascii) : bool :=
  ((48 <=? nat_of_ascii c) && (nat_of_ascii c <=? 57))%nat.

(** A text [{"dataVersion":ddd...d}] whose integer has more than 4300 digits. *)
Definition long_integer_text (text : string) : bool :=
  let head := string_of_list_byte (json_pattern ++ b ":")%list in
  String.prefix head text &&
  match rev (list_ascii_of_string
               (String.substring (String.length head)
                  (String.length text - String.length head) text)) with
  | closing :: digits =>
      Ascii.eqb closing "}" && forallb is_digit digits &&
      (4300 <? List.length digits)%nat
  | [] => false
  end.

(** [json.loads] on the texts of the examples: the one JSON text above, a
    text whose integer is beyond the digit limit, and texts that are not
    JSON. *)
Definition reference_json_loads (text : string) : res pyval :=
  if String.eqb text sample_json_text then Ok sample_json_value
  else if long_integer_text text then
    Raise (ValueError "Exceeds the limit (4300 digits) for integer string conversion")
  else Raise (JSONDecodeError "Expecting value").

Lemma reference_json_loads_raises (text : string) (e : exn) :
  reference_json_loads text = Raise e -> json_error e = true.
Proof.
  unfold reference_json_loads.
  destruct (String.eqb text sample_json_text); [discriminate|].
  destruct (long_integer_text text); intros [= <-]; reflexivity.
Qed.

(** A runtime for the examples.  It answers as Python does on what the
    examples feed it: ASCII text, the JSON texts above, and [str] of [None],
    booleans, integers and strings; [javaobj.load] is played by the reference
    decoder. *)
Definition reference_runtime : Runtime := {|
  decode_utf8_ignore := decode_ascii_ignore;
  json_loads := reference_json_loads;
  json_load := fun content =>
    if String.eqb (decode_ascii_ignore content) sample_json_text then Ok sample_json_value
    else Raise (JSONDecodeError "Expecting value");
  javaobj_load := fun data pos =>
    match decode_stream (skipn (Z.to_nat pos) data) with
    | inr Null => Ok PNone
    | inr (StringVal text) => Ok (PStr text)
    | inl e => Raise (LibraryError (protocol_error_text e))
    end;
  py_str := fun v =>
    match v with
    | PStr text => text
    | PInt z => NilZero.string_of_int (Z.to_int z)
    | PBool true => "True"
    | PBool false => "False"
    | PNone => "None"
    | _ => py_type v
    end;
  exn_str := fun e =>
    match e with
    | FileNotFoundError msg | IsADirectoryError msg | TypeError msg
    | AttributeError msg | KeyError msg | JSONDecodeError msg
    | ValueError msg | RecursionError msg | LibraryError msg => msg
    | UnboundLocalError name =>
        "cannot access local variable '" ++ name ++
        "' where it is not associated with a value"
    end;
  json_loads_raises := reference_json_loads_raises
|}.

(** * What the statements speak of *)

(** ** Occurrences in a buffer *)

(** [sub] is read in [data] at index [i]. *)
Definition occurs_at (data sub : bytes) (i : nat) : Prop :=
  firstn (List.length sub) (skipn i data) = sub.

(** [i] is the first index at or after [start] where [sub] is read. *)
Definition first_at (data sub : bytes) (start i : nat) : Prop :=
  (start <= i)%nat /\ occurs_at data sub i /\
  forall j, (start <= j < i)%nat -> ~ occurs_at data sub j.

(** ** Readings of a run of [parse_qpdata] *)

Section Readings.
Context {rt : Runtime}.

(** The [version] entry after step 1. *)
Definition version_value (data : bytes) : pyval :=
  if startswith data version_prefix then
    if find data [x74] 19 >? 0 then
      PStr (decode_utf8_ignore (slice data 19 (find data [x74] 19)))
    else PNone
  else PNone.

(** The [raw_strings] entry after step 3. *)
Definition raw_strings_value (data : bytes) : pyval :=
  PList (map (fun t => PStr (decode_ascii_ignore t)) (firstn 30 (findall_printable data))).

(** The text between the leading key at [s] and the closing brace at [e]. *)
Definition json_text (data : bytes) (s e : Z) : string :=
  decode_utf8_ignore (slice data s (e + 1)).

(** The entries when neither the JSON nor the hierarchy has been read. *)
Definition bare_result (data : bytes) : dict pyval :=
  [("version", version_value data); ("metadata", PNone); ("hierarchy", PNone);
   ("raw_strings", raw_strings_value data)].

(** The exception of [json.loads] on that text that [parse_qpdata] does not
    catch, if there is one. *)
Definition json_fault (data : bytes) (s e : Z) : option exn :=
  match json_loads (json_text data s e) with
  | Ok _ => None
  | Raise err => if is_json_decode_error err then None else Some err
  end.

(** The entries when the JSON block runs from [s] to the brace at [e] and
    [json.loads] returned or raised [JSONDecodeError]. *)
Definition full_result (data : bytes) (s e : Z) : dict pyval :=
  ([("version", version_value data);
   ("metadata", match json_loads (json_text data s e) with
                | Ok metadata => metadata
                | Raise _ => PNone
                end);
   ("hierarchy", match javaobj_load data (e + 3) with
                 | Ok pobj => pobj
                 | Raise _ => PNone
                 end);
   ("raw_strings", raw_strings_value data)] ++
  match json_loads (json_text data s e) with
  | Ok _ => []
  | Raise _ => [("metadata_raw", PStr (take 500 (json_text data s e)))]
  end)%list.

(** The entries when [json.loads] ended the parse: steps 3 and 4 were not
    reached. *)
Definition interrupted_result (data : bytes) : dict pyval :=
  [("version", version_value data); ("metadata", PNone); ("hierarchy", PNone);
   ("raw_strings", PList [])].

(** ** The nodes visited by [extract_annotations] *)

(** The nodes that [extract_annotations] passes to [extract_annotation_info]
    from one entry of [__dict__], and from one item of [map]. *)
Definition field_nodes (item : string * pyval) : list pyval :=
  let (key, value) := item in
  if contains "pathobject" (lower key) || contains "annotation" (lower key) then
    match value with
    | PList items => items
    | _ => [value]
    end
  else [].

Definition map_nodes (item : pyval * pyval) : list pyval :=
  let (key, value) := item in
  if contains "annotation" (lower (py_str key)) then [value] else [].

Definition mapped_nodes (qpdata_obj : pyval) : list pyval :=
  if hasattr qpdata_obj "map" then
    match getattr qpdata_obj "map" with
    | Ok m => match py_items m with
              | Ok items => flat_map map_nodes items
              | Raise _ => []
              end
    | Raise _ => []
    end
  else [].

(** The nodes passed to [extract_annotation_info], in order.  Where iterating
    [annotations] raises, the search ends with nothing visited. *)
Definition visited_nodes (qpdata_obj : pyval) : list pyval :=
  if hasattr qpdata_obj "annotations" then
    match getattr qpdata_obj "annotations" with
    | Ok anns => match py_iter anns with
                 | Ok items => (items ++ mapped_nodes qpdata_obj)%list
                 | Raise _ => []
                 end
    | Raise _ => []
    end
  else (flat_map field_nodes (obj_dict qpdata_obj) ++ mapped_nodes qpdata_obj)%list.

End Readings.

(** ** Letter case *)

(** The letters A-Z. *)
Definition is_ascii_upper (c : ascii) : bool :=
  ((65 <=? nat_of_ascii c) && (nat_of_ascii c <=? 90))%nat.

(** The same character, or the two cases of one ASCII letter. *)
Definition same_letter (c1 c2 : ascii) : bool :=
  Ascii.eqb c1 c2 ||
  (is_ascii_upper c1 && (nat_of_ascii c2 =? nat_of_ascii c1 + 32)%nat) ||
  (is_ascii_upper c2 && (nat_of_ascii c1 =? nat_of_ascii c2 + 32)%nat).

(** Two names that differ at most in the case of their ASCII letters. *)
Fixpoint ignoring_case (s1 s2 : string) : bool :=
  match s1, s2 with
  | EmptyString, EmptyString => true
  | String c1 r1, String c2 r2 => same_letter c1 c2 && ignoring_case r1 r2
  | _, _ => false
  end.

(** ** A decoder that never raises *)

(** The runtime in which [javaobj.load] returns [None] where it raised. *)
Definition silenced (rt : Runtime) : Runtime := {|
  decode_utf8_ignore := @decode_utf8_ignore rt;
  json_loads := @json_loads rt;
  json_load := @json_load rt;
  javaobj_load := fun data pos =>
    match @javaobj_load rt data pos with
    | Ok pobj => Ok pobj
    | Raise _ => Ok PNone
    end;
  py_str := @py_str rt;
  exn_str := @exn_str rt;
  json_loads_raises := @json_loads_raises rt
|}.

(** ** Another decoder *)

(** The runtime in which [javaobj.load] is played by [load]. *)
Definition with_decoder (rt : Runtime) (load : bytes -> Z -> res pyval) : Runtime := {|
  decode_utf8_ignore := @decode_utf8_ignore rt;
  json_loads := @json_loads rt;
  json_load := @json_load rt;
  javaobj_load := load;
  py_str := @py_str rt;
  exn_str := @exn_str rt;
  json_loads_raises := @json_loads_raises rt
|}.

(** An entry of the listing without the [has_hierarchy] flag of its
    [parsed_data]. *)
Definition without_hierarchy_flag (entry : dict pyval) : dict pyval :=
  match dict_get entry "parsed_data" with
  | Some (PDict items) =>
      dict_set entry "parsed_data"
        (PDict (filter (fun kv => negb (eq_str (fst kv) "has_hierarchy")) items))
  | _ => entry
  end.

(** Two outcomes of a statement on an entry that end in the same way and
    differ at most in the [has_hierarchy] flag of the entry. *)
Definition same_but_flag (x y : res unit * dict pyval) : Prop :=
  fst x = fst y /\
  without_hierarchy_flag (snd x) = without_hierarchy_flag (snd y).

(** ** Runs of printable bytes *)

(** A buffer that is empty or ends, resp. starts, with a byte outside
    [[\x20-\x7e]]. *)
Definition ends_unprintable (pre : bytes) : Prop :=
  pre = [] \/ exists pre' c, pre = (pre' ++ [c])%list /\ printable c = false.

Definition starts_unprintable (post : bytes) : Prop :=
  match post with
  | [] => True
  | c :: _ => printable c = false
  end.

(** [m] is a run of at least ten printable bytes of [data] that cannot be
    extended on either side. *)
Definition maximal_run (data m : bytes) : Prop :=
  (10 <= List.length m)%nat /\
  Forall (fun c => printable c = true) m /\
  exists pre post,
    data = (pre ++ m ++ post)%list /\ ends_unprintable pre /\ starts_unprintable post.

(** ** Sample data *)

(** A file system with one file, [data.qpdata]. *)
Definition one_file (data : bytes) : filesystem :=
  fun p => if String.eqb p "data.qpdata" then Some (File data) else None.

(** The keyword set in the words of the specification (name,
    classification/pathClass, roi/geometry, measurement), matched as the
    program matches its own: anywhere in the lower-cased field name. *)
Definition spec_keywords : list string :=
  ["name"; "classification"; "pathclass"; "roi"; "geometry"; "measurement"].

Definition spec_is_property (key : string) : bool :=
  existsb (fun keyword => contains keyword (lower key)) spec_keywords.

(** A complete object stream (preamble and a null marker) and nothing else. *)
Definition stream_only : bytes := [xac; xed; x00; x05; x70].

(** One filler byte, the leading key, a closing brace, the marker, a space:
    the brace is at offset 15 and the file ends at offset 19. *)
Definition short_container : bytes := (b "#" ++ json_pattern ++ b "}sr ")%list.

(** As above, with a first [}sr] at offset 15 that no space follows. *)
Definition two_markers : bytes := (b "#" ++ json_pattern ++ b "}sr#}sr ")%list.

(** As [short_container], with a JSON text whose integer has 5000 digits. *)
Definition long_integer : bytes :=
  (b "#" ++ json_pattern ++ b ":" ++ repeat x31 5000 ++ b "}sr ")%list.

(** A container with the three segments: a version header, a filler byte,
    the JSON text [{"dataVersion":1}], the marker and a space, then a complete
    object stream. *)
Definition full_container : bytes :=
  (b "Data file version 1.0t#" ++ json_pattern ++ b ":1}sr " ++ stream_only)%list.

(** A project with the data directory of image 7 only. *)
Definition sample_project : filesystem :=
  fun p =>
    if String.eqb p "proj/data/7" then Some Dir
    else if String.eqb p "proj/data/7/data.qpdata" then Some (File short_container)
    else None.

Definition sample_images : list pyval :=
  [PDict [(PStr "entryID", PInt 7)]; PDict [(PStr "entryID", PInt 8)]].

Definition sample_entry : dict pyval :=
  [("entryID", PInt 7);
   ("data_path", PStr "proj/data/7/data.qpdata");
   ("parsed_data",
    PDict [(PStr "has_metadata", PBool false);
           (PStr "has_hierarchy", PBool false);
           (PStr "version", PNone)]);
   ("classes", PDict [])].

(** ** The entries of the project listing *)

(** A statement that writes nothing. *)
Definition stateless {S A : Type} (m : M S A) : Prop :=
  forall s, exists r, m s = (r, s).

(** An entry that is there or not. *)
Definition optional_entry (k : string) (o : option pyval) : dict pyval :=
  match o with
  | Some v => [(k, v)]
  | None => []
  end.

(** The [parsed_data] entry made from a result. *)
Definition parsed_summary (parsed_data : dict pyval) : pyval :=
  as_pydict
    [("has_metadata", PBool (is_not_none (dict_get_or_none parsed_data "metadata")));
     ("has_hierarchy", PBool (is_not_none (dict_get_or_none parsed_data "hierarchy")));
     ("version", dict_get_or_none parsed_data "version")].

Section Entries.
Context {rt : Runtime}.

(** The rendering of one field. *)
Definition render (item : string * pyval) : string * string :=
  (fst item, take 200 (py_str (snd item))).

(** The entries written before the [try]: [uri], [entryID], [summary],
    [data_path], in this order. *)
Definition entry_head (uri : option pyval) (entryID : pyval) (summary : option pyval)
    (qpdata_path : string) : dict pyval :=
  (optional_entry "uri" uri ++ [("entryID", entryID)] ++
   optional_entry "summary" summary ++ [("data_path", PStr qpdata_path)])%list.

(** Every way in which one turn of the loop builds its entry. *)
Definition entry_shape (fs : filesystem) (data_path : string) (classes : pyval)
    (verbose : bool) (idx : Z) (image : pyval) (entry : dict pyval) : Prop :=
  exists uri,
    (py_in "entryID" image = Ok false /\ entry = optional_entry "uri" uri) \/
    exists entryID,
      py_in "entryID" image = Ok true /\ py_getitem image "entryID" = Ok entryID /\
      ((path_exists fs (path_join data_path (py_str entryID)) = false /\
        entry = (optional_entry "uri" uri ++ [("entryID", entryID)])%list) \/
       (path_exists fs (path_join data_path (py_str entryID)) = true /\
        exists summary,
          let qp := path_join (path_join data_path (py_str entryID)) "data.qpdata" in
          (exists e,
             (forall e', parse_qpdata fs qp = Raise e' -> e = e') /\
             entry = (entry_head uri entryID summary qp ++
                      [("error", PStr (str_exn e))])%list) \/
          (exists parsed_data metadata,
             parse_qpdata fs qp = Ok parsed_data /\
             (forall m, metadata = Some m ->
                        dict_get parsed_data "metadata" = Some m /\ truthy m = true /\
                        (idx = 1 \/ verbose = true)) /\
             entry = (entry_head uri entryID summary qp ++
                      optional_entry "metadata" metadata ++
                      [("parsed_data", parsed_summary parsed_data);
                       ("classes", classes)])%list))).

(** [new] holds the entries of [images], built in turn from index [idx] on. *)
Fixpoint entries_of (fs : filesystem) (data_path : string) (classes : pyval)
    (verbose : bool) (idx : Z) (images : list pyval) (new : list (dict pyval)) : Prop :=
  match images, new with
  | [], [] => True
  | image :: rest, entry :: more =>
      image_entry fs data_path classes verbose idx image [] = (Ok tt, entry) /\
      entries_of fs data_path classes verbose (idx + 1) rest more
  | _, _ => False
  end.

End Entries.

(** ** Sample projects *)

(** The manifest text [{"images":[{"entryID":7},{"entryID":8}]}]. *)
Definition manifest_bytes : bytes :=
  (b "{" ++ [x22] ++ b "images" ++ [x22] ++ b ":[{" ++ [x22] ++ b "entryID" ++ [x22] ++
   b ":7},{" ++ [x22] ++ b "entryID" ++ [x22] ++ b ":8}]}")%list.

Definition manifest_value : pyval := PDict [(PStr "images", PList sample_images)].

(** The reference runtime with a [json.load] that also reads the manifest. *)
Definition project_runtime : Runtime := {|
  decode_utf8_ignore := @decode_utf8_ignore reference_runtime;
  json_loads := @json_loads reference_runtime;
  json_load := fun content =>
    if String.eqb (string_of_list_byte content) (string_of_list_byte manifest_bytes)
    then Ok manifest_value
    else @json_load reference_runtime content;
  javaobj_load := @javaobj_load reference_runtime;
  py_str := @py_str reference_runtime;
  exn_str := @exn_str reference_runtime;
  json_loads_raises := @json_loads_raises reference_runtime
|}.

(** [d[k] = v] for the examples: exact on a string key and on a list or a
    dictionary, which cannot be hashed; any other key is taken as new. *)
Fixpoint items_set (items : list (pyval * pyval)) (k : string) (v : pyval) :
    list (pyval * pyval) :=
  match items with
  | [] => [(PStr k, v)]
  | (k', v') :: rest =>
      if eq_str k' k then (k', v) :: rest else (k', v') :: items_set rest k v
  end.

Definition setitem_by_name (items : list (pyval * pyval)) (k v : pyval) :
    res (list (pyval * pyval)) :=
  match k with
  | PStr name => Ok (items_set items name v)
  | PList _ | PDict _ => Raise (TypeError "unhashable type")
  | _ => Ok (items ++ [(k, v)])%list
  end.

(** [sample_project] with its manifest. *)
Definition whole_project : filesystem :=
  fun p =>
    if String.eqb p "proj/project.qpproj" then Some (File manifest_bytes)
    else sample_project p.

(** A project whose manifest is the dictionary [{"dataVersion":1}]. *)
Definition empty_project : filesystem :=
  fun p =>
    if String.eqb p "proj/project.qpproj"
    then Some (File (list_byte_of_string sample_json_text))
    else None.

(** A project with three data directories: image 3 has a full container,
    image 5 a [summary.json] that is no JSON, image 9 no [data.qpdata]. *)
Definition mixed_project : filesystem :=
  fun p =>
    if String.eqb p "proj/data/3" then Some Dir
    else if String.eqb p "proj/data/3/data.qpdata" then Some (File full_container)
    else if String.eqb p "proj/data/5" then Some Dir
    else if String.eqb p "proj/data/5/summary.json" then Some (File (b "oops"))
    else if String.eqb p "proj/data/9" then Some Dir
    else None.

Definition image_with_id (n : Z) : pyval := PDict [(PStr "entryID", PInt n)].

(** The result of parsing [full_container]. *)
Definition full_container_result : dict pyval :=
  [("version", PStr ".0");
   ("metadata", PDict [(PStr "dataVersion", PInt 1)]);
   ("hierarchy", PNone);
   ("raw_strings", PList [PStr (string_of_list_byte (firstn 43 full_container))])].

(** The result of parsing [short_container]. *)
Definition short_container_result : dict pyval :=
  [("version", PNone); ("metadata", PNone); ("hierarchy", PNone);
   ("raw_strings", PList [PStr (string_of_list_byte short_container)]);
   ("metadata_raw", PStr (string_of_list_byte (json_pattern ++ b "}")%list))].

(** The entry of image 3 of [mixed_project] when it comes first. *)
Definition entry_3 : dict pyval :=
  [("entryID", PInt 3);
   ("data_path", PStr "proj/data/3/data.qpdata");
   ("metadata", PDict [(PStr "dataVersion", PInt 1)]);
   ("parsed_data",
    PDict [(PStr "has_metadata", PBool true);
           (PStr "has_hierarchy", PBool false);
           (PStr "version", PStr ".0")]);
   ("classes", PDict [])].

(** The entry of image 9 of [mixed_project]. *)
Definition entry_9 : dict pyval :=
  [("entryID", PInt 9);
   ("data_path", PStr "proj/data/9/data.qpdata");
   ("error", PStr "File not found: proj/data/9/data.qpdata")].

(** * Properties *)

(** ** Searching a buffer *)

Lemma startswith_occurs (data sub : bytes) :
  startswith data sub = true <-> occurs_at data sub 0.
Proof.
  unfold occurs_at. simpl skipn. revert data.
  induction sub as [|p ps IH]; intros data.
  - simpl. split; reflexivity.
  - destruct data as [|d ds]; simpl.
    + split; discriminate.
    + rewrite andb_true_iff, IH. split.
      * intros [E H]. apply Byte.byte_dec_bl in E. subst. now rewrite H.
      * intros H. injection H as -> H. split; [apply Byte.byte_dec_lb; reflexivity | exact H].
Qed.

Lemma occurs_at_cons (x : byte) (data sub : bytes) (n : nat) :
  occurs_at (x :: data) sub (S n) <-> occurs_at data sub n.
Proof. unfold occurs_at. simpl. tauto. Qed.

Lemma occurs_at_skipn (data sub : bytes) (s n : nat) :
  occurs_at (skipn s data) sub n <-> occurs_at data sub (s + n).
Proof.
  unfold occurs_at. rewrite skipn_skipn, (Nat.add_comm n s). tauto.
Qed.

Lemma occurs_at_bound (data sub : bytes) (i : nat) :
  sub <> [] -> occurs_at data sub i -> (i + List.length sub <= List.length data)%nat.
Proof.
  unfold occurs_at. intros Hne H.
  assert (L : List.length (firstn (List.length sub) (skipn i data)) = List.length sub)
    by now rewrite H.
  rewrite length_firstn, length_skipn in L.
  destruct sub as [|c sub]; [congruence|]. clear H Hne.
  change (List.length (c :: sub)) with (S (List.length sub)) in *. lia.
Qed.

Lemma find_at_spec (sub data : bytes) (i : nat) :
  match find_at sub data i with
  | Some k => exists n, k = (i + n)%nat /\ occurs_at data sub n /\
                        forall m, (m < n)%nat -> ~ occurs_at data sub m
  | None => forall n, ~ occurs_at data sub n
  end.
Proof.
  revert i. induction data as [|x rest IH]; intros i; simpl.
  - destruct (startswith [] sub) eqn:E.
    + exists 0%nat. rewrite Nat.add_0_r. repeat split.
      * now apply startswith_occurs.
      * intros m Hm. lia.
    + intros n H. assert (H0 : occurs_at [] sub 0).
      { unfold occurs_at in *. now rewrite skipn_nil in H. }
      apply startswith_occurs in H0. congruence.
  - destruct (startswith (x :: rest) sub) eqn:E.
    + exists 0%nat. rewrite Nat.add_0_r. repeat split.
      * now apply startswith_occurs.
      * intros m Hm. lia.
    + specialize (IH (S i)). destruct (find_at sub rest (S i)) as [k|].
      * destruct IH as (n & -> & Hocc & Hmin). exists (S n). repeat split.
        -- lia.
        -- now apply occurs_at_cons.
        -- intros [|m] Hm H.
           ++ apply startswith_occurs in H. congruence.
           ++ apply occurs_at_cons in H. apply (Hmin m); [lia | exact H].
      * intros [|n] H.
        -- apply startswith_occurs in H. congruence.
        -- apply occurs_at_cons in H. exact (IH n H).
Qed.

(** [find] answers the first occurrence at or after [start]. *)
Lemma find_first (data sub : bytes) (start i : nat) :
  sub <> [] -> first_at data sub start i ->
  find data sub (Z.of_nat start) = Z.of_nat i.
Proof.
  intros Hne (Hle & Hocc & Hmin). unfold find.
  pose proof (occurs_at_bound _ _ _ Hne Hocc) as Hb.
  destruct (Z.ltb_spec (Z.of_nat (List.length data)) (Z.of_nat start)); [lia|].
  rewrite Nat2Z.id.
  pose proof (find_at_spec sub (skipn start data) start) as S.
  destruct (find_at sub (skipn start data) start) as [k|].
  - destruct S as (n & -> & Hn & Hnmin). f_equal.
    apply occurs_at_skipn in Hn.
    destruct (Nat.lt_trichotomy (start + n) i) as [L|[E|G]]; [|exact E|].
    + exfalso. apply (Hmin (start + n)%nat); [lia | exact Hn].
    + exfalso. apply (Hnmin (i - start)%nat); [lia|].
      apply occurs_at_skipn. now replace (start + (i - start))%nat with i by lia.
  - exfalso. apply (S (i - start)%nat). apply occurs_at_skipn.
    now replace (start + (i - start))%nat with i by lia.
Qed.

(** A non-negative answer of [find] is a first occurrence. *)
Lemma find_found (data sub : bytes) (start : nat) (i : Z) :
  find data sub (Z.of_nat start) = i -> 0 <= i ->
  first_at data sub start (Z.to_nat i).
Proof.
  unfold find. intros H Hi.
  destruct (Z.ltb_spec (Z.of_nat (List.length data)) (Z.of_nat start)); [lia|].
  rewrite Nat2Z.id in H.
  pose proof (find_at_spec sub (skipn start data) start) as S.
  destruct (find_at sub (skipn start data) start) as [k|]; [|lia].
  destruct S as (n & -> & Hn & Hnmin). subst i. rewrite Nat2Z.id.
  repeat split.
  - lia.
  - now apply occurs_at_skipn.
  - intros j Hj Hocc. apply (Hnmin (j - start)%nat); [lia|].
    apply occurs_at_skipn. now replace (start + (j - start))%nat with j by lia.
Qed.

(** [find] answers [-1] or an index. *)
Lemma find_range (data sub : bytes) (start : Z) :
  find data sub start = -1 \/ 0 <= find data sub start.
Proof.
  unfold find. destruct (_ <? _); [now left|].
  destruct (find_at _ _ _); [right; lia | now left].
Qed.

(** Where [sub] is nowhere read, [find] answers [-1]. *)
Lemma find_absent (data sub : bytes) (start : nat) :
  (forall j, (start <= j)%nat -> ~ occurs_at data sub j) ->
  find data sub (Z.of_nat start) = -1.
Proof.
  intros Habs. destruct (find_range data sub (Z.of_nat start)) as [E|G]; [exact E|].
  exfalso. destruct (find_found data sub start _ eq_refl G) as (Hle & Hocc & _).
  exact (Habs _ Hle Hocc).
Qed.

(** An answer [-1] of [find] means that [sub] is read nowhere from [start] on. *)
Lemma find_none (data sub : bytes) (start j : nat) :
  sub <> [] -> find data sub (Z.of_nat start) = -1 -> (start <= j)%nat ->
  ~ occurs_at data sub j.
Proof.
  unfold find. intros Hne H Hj Hocc.
  pose proof (occurs_at_bound _ _ _ Hne Hocc) as Hb.
  destruct (Z.ltb_spec (Z.of_nat (List.length data)) (Z.of_nat start)); [lia|].
  rewrite Nat2Z.id in H.
  pose proof (find_at_spec sub (skipn start data) start) as S.
  destruct (find_at sub (skipn start data) start) as [k|]; [lia|].
  apply (S (j - start)%nat). apply occurs_at_skipn.
  now replace (start + (j - start))%nat with j by lia.
Qed.

(** ** Dictionaries *)

Lemma dict_get_set_same {V : Type} (d : dict V) (k : string) (v : V) :
  dict_get (dict_set d k v) k = Some v.
Proof.
  induction d as [|[k' v'] d IH]; simpl.
  - now rewrite String.eqb_refl.
  - destruct (String.eqb k' k) eqn:E; simpl.
    + now rewrite String.eqb_refl.
    + now rewrite E.
Qed.

Lemma dict_get_set_other {V : Type} (d : dict V) (k k' : string) (v : V) :
  k <> k' -> dict_get (dict_set d k v) k' = dict_get d k'.
Proof.
  intros Hne. induction d as [|[k0 v0] d IH]; simpl.
  - apply String.eqb_neq in Hne. now rewrite Hne.
  - destruct (String.eqb k0 k) eqn:E; simpl.
    + apply String.eqb_eq in E. subst k0.
      apply String.eqb_neq in Hne. now rewrite Hne.
    + now rewrite IH.
Qed.

Lemma dict_set_keys {V : Type} (d : dict V) (k k' : string) (v : V) :
  In k' (map fst (dict_set d k v)) <-> k' = k \/ In k' (map fst d).
Proof.
  induction d as [|[k0 v0] d IH]; simpl.
  - intuition congruence.
  - destruct (String.eqb k0 k) eqn:E; simpl.
    + apply String.eqb_eq in E. subst k0. intuition congruence.
    + rewrite IH. intuition congruence.
Qed.

(** The entries of [dict_set d k v] are [(k, v)] and entries of [d]. *)
Lemma dict_set_entries {V : Type} (d : dict V) (k : string) (v : V) (kv : string * V) :
  In kv (dict_set d k v) -> kv = (k, v) \/ In kv d.
Proof.
  induction d as [|[k0 v0] d IH]; simpl.
  - intuition.
  - destruct (String.eqb k0 k); simpl; intuition.
Qed.

(** ** What a run of [parse_qpdata] leaves behind *)

Section ParseFacts.
Context {rt : Runtime}.

Ltac run_parse :=
  unfold parse_body, read_version, read_metadata, read_raw_strings,
    read_hierarchy, bare_result, full_result, interrupted_result, json_fault,
    json_text, version_value.

(** Leading key absent, or at offset 0: [json_end] is read unassigned. *)
Lemma parse_body_no_json (data : bytes) :
  find data json_pattern 0 <= 0 ->
  parse_body data start_frame =
    (Raise (UnboundLocalError "json_end"),
     {| result := bare_result data; loads := [] |}).
Proof.
  intros H. run_parse.
  destruct (Z.gtb_spec (find data json_pattern 0) 0) as [|_]; [lia|].
  destruct (startswith data version_prefix); [|reflexivity].
  destruct (find data [x74] 19 >? 0); reflexivity.
Qed.

(** Leading key found, no closing brace followed by [sr ] after it. *)
Lemma parse_body_no_marker (data : bytes) :
  0 < find data json_pattern 0 ->
  find data stream_marker (find data json_pattern 0) <= 0 ->
  parse_body data start_frame =
    (Ok tt, {| result := bare_result data; loads := [] |}).
Proof.
  intros Hs He. run_parse.
  destruct (Z.gtb_spec (find data json_pattern 0) 0) as [_|]; [|lia].
  destruct (Z.gtb_spec (find data stream_marker (find data json_pattern 0)) 0)
    as [|_]; [lia|].
  destruct (find_range data stream_marker (find data json_pattern 0)) as [E|G].
  - rewrite E.
    destruct (startswith data version_prefix); [|reflexivity].
    destruct (find data [x74] 19 >? 0); reflexivity.
  - assert (E : find data stream_marker (find data json_pattern 0) = 0) by lia.
    rewrite E.
    destruct (startswith data version_prefix); [|reflexivity].
    destruct (find data [x74] 19 >? 0); reflexivity.
Qed.

(** Leading key at [s > 0] and the brace of the first [}sr ] at [e], with a
    JSON text on which [json.loads] returns or raises [JSONDecodeError]. *)
Lemma parse_body_json (data : bytes) (s e : Z) :
  find data json_pattern 0 = s -> 0 < s ->
  find data stream_marker s = e -> 0 < e ->
  json_fault data s e = None ->
  parse_body data start_frame =
    (Ok tt, {| result := full_result data s e; loads := [e + 3] |}).
Proof.
  intros Es Hs Ee He Hf. revert Hf. run_parse. rewrite Es, Ee.
  destruct (Z.gtb_spec s 0) as [_|]; [|lia].
  destruct (Z.gtb_spec e 0) as [_|]; [|lia].
  assert (G : negb (e + 1 =? 0) && (e + 1 >? 0) = true).
  { destruct (Z.eqb_spec (e + 1) 0); [lia|].
    destruct (Z.gtb_spec (e + 1) 0); [reflexivity | lia]. }
  assert (P : e + 1 + 2 = e + 3) by lia.
  destruct (startswith data version_prefix);
    [destruct (find data [x74] 19 >? 0)|];
    (destruct (json_loads (decode_utf8_ignore (slice data s (e + 1)))) as [metadata|err];
     [|destruct (is_json_decode_error err) eqn:J; [|discriminate]]);
    intros _;
    unfold bind, ret, lift, try_except_of, set_result, modify, start_frame;
    try rewrite J; simpl result; simpl loads;
    rewrite G; unfold try_except, load_at, bind, set_result, modify; rewrite P;
    destruct (javaobj_load data (e + 3)); reflexivity.
Qed.

(** Leading key at [s > 0], the brace at [e], and a JSON text on which
    [json.loads] raises an exception that is not caught. *)
Lemma parse_body_fault (data : bytes) (s e : Z) (err : exn) :
  find data json_pattern 0 = s -> 0 < s ->
  find data stream_marker s = e -> 0 < e ->
  json_fault data s e = Some err ->
  parse_body data start_frame =
    (Raise err, {| result := interrupted_result data; loads := [] |}).
Proof.
  intros Es Hs Ee He Hf. revert Hf. run_parse. rewrite Es, Ee.
  destruct (Z.gtb_spec s 0) as [_|]; [|lia].
  destruct (Z.gtb_spec e 0) as [_|]; [|lia].
  destruct (startswith data version_prefix);
    [destruct (find data [x74] 19 >? 0)|];
    (destruct (json_loads (decode_utf8_ignore (slice data s (e + 1)))) as [metadata|err'];
     [discriminate|destruct (is_json_decode_error err') eqn:J; [discriminate|]]);
    intros [= <-];
    unfold bind, ret, lift, try_except_of, set_result, modify, start_frame;
    rewrite J; reflexivity.
Qed.

End ParseFacts.

(** A buffer read at [i] has the bytes of [sub] from [i] on. *)
Lemma occurs_at_nth (data sub : bytes) (i k : nat) :
  occurs_at data sub i -> (k < List.length sub)%nat ->
  nth_error data (i + k) = nth_error sub k.
Proof.
  unfold occurs_at. intros H Hk.
  rewrite <- nth_error_skipn, <- H at 1.
  rewrite nth_error_firstn. apply Nat.ltb_lt in Hk. now rewrite Hk.
Qed.

(** ** The container parser *)

Section ParseResults.
Context {rt : Runtime}.

Lemma parse_run_file (fs : filesystem) (file_path : string) (data : bytes) :
  fs file_path = Some (File data) ->
  parse_run fs file_path = parse_body data start_frame.
Proof.
  intros H. unfold parse_run, path_exists, read_file. now rewrite H.
Qed.

(** When the bytes do not start with the version prefix, step 1 raises
    nothing and leaves every entry, the [version] of [None] included, as it
    was. *)
Lemma read_version_absent (data : bytes) (s : frame) :
  startswith data version_prefix = false -> read_version data s = (Ok tt, s).
Proof. intros H. unfold read_version. now rewrite H. Qed.

(** Step 1 never raises. *)
Lemma read_version_completes (data : bytes) (s : frame) :
  exists s', read_version data s = (Ok tt, s') /\ loads s' = loads s.
Proof.
  unfold read_version.
  destruct (startswith data version_prefix); [|now exists s].
  destruct (find data [x74] 19 >? 0); [|now exists s].
  eexists. split; reflexivity.
Qed.

Lemma pattern_nonempty : json_pattern <> [].
Proof. discriminate. Qed.

Lemma marker_nonempty : stream_marker <> [].
Proof. discriminate. Qed.

(** The exception [json.loads] passes on is one of its own. *)
Lemma json_fault_error (data : bytes) (s e : Z) (err : exn) :
  json_fault data s e = Some err ->
  json_error err = true /\ is_json_decode_error err = false.
Proof.
  unfold json_fault.
  destruct (json_loads (json_text data s e)) as [v|err'] eqn:E; [discriminate|].
  destruct (is_json_decode_error err') eqn:J; [discriminate|].
  intros [= <-]. split; [exact (json_loads_raises _ _ E) | exact J].
Qed.

(** The four ways a run over an existing file ends. *)
Lemma parse_body_cases (data : bytes) :
  parse_body data start_frame =
    (Raise (UnboundLocalError "json_end"),
     {| result := bare_result data; loads := [] |}) \/
  parse_body data start_frame =
    (Ok tt, {| result := bare_result data; loads := [] |}) \/
  exists s e, 0 < s /\ 0 < e /\
    find data json_pattern 0 = s /\ find data stream_marker s = e /\
    ((json_fault data s e = None /\
      parse_body data start_frame =
        (Ok tt, {| result := full_result data s e; loads := [e + 3] |})) \/
     (exists err, json_fault data s e = Some err /\
        parse_body data start_frame =
          (Raise err, {| result := interrupted_result data; loads := [] |}))).
Proof.
  destruct (Z_le_gt_dec (find data json_pattern 0) 0) as [L|G].
  - left. now apply parse_body_no_json.
  - right.
    destruct (Z_le_gt_dec (find data stream_marker (find data json_pattern 0)) 0)
      as [L'|G'].
    + left. apply parse_body_no_marker; [lia | exact L'].
    + right. exists (find data json_pattern 0),
        (find data stream_marker (find data json_pattern 0)).
      split; [lia|]. split; [lia|]. split; [reflexivity|]. split; [reflexivity|].
      destruct (json_fault data (find data json_pattern 0)
                  (find data stream_marker (find data json_pattern 0))) as [err|] eqn:F.
      * right. exists err. split; [reflexivity|].
        apply (parse_body_fault data (find data json_pattern 0)
                 (find data stream_marker (find data json_pattern 0)) err);
          [reflexivity | lia | reflexivity | lia | exact F].
      * left. split; [reflexivity|].
        apply (parse_body_json data (find data json_pattern 0)
                 (find data stream_marker (find data json_pattern 0)));
          [reflexivity | lia | reflexivity | lia | exact F].
Qed.

(** C1 (amended): when the bytes of a container file nowhere hold the leading
    key [{"dataVersion"], the parse records no JSON (the [metadata] entry stays
    [None] and no [metadata_raw] entry appears) and it does not decode the
    object stream on its own: the file is never handed to the decoder and the
    [hierarchy] entry stays [None]. *)
Theorem C1_no_json_no_decode (fs : filesystem) (file_path : string) (data : bytes) :
  fs file_path = Some (File data) ->
  (forall i, ~ occurs_at data json_pattern i) ->
  let at_exit := snd (parse_run fs file_path) in
  dict_get (result at_exit) "metadata" = Some PNone /\
  dict_get (result at_exit) "metadata_raw" = None /\
  dict_get (result at_exit) "hierarchy" = Some PNone /\
  loads at_exit = [].
Proof.
  intros Hfile Habs at_exit. subst at_exit.
  rewrite (parse_run_file _ _ _ Hfile).
  assert (F : find data json_pattern 0 = -1).
  { apply (find_absent data json_pattern 0). intros j _. apply Habs. }
  rewrite parse_body_no_json by lia.
  repeat split.
Qed.

(** C3 (amended): when the leading key [{"dataVersion"] is first read at an
    offset [s > 0] and [e] is the first offset from [s] on where a closing
    brace is followed by the three bytes [sr ] (the two-byte marker and a
    space), the JSON text is the bytes from [s] through the brace at [e].
    Unless [json.loads] raises on that text an exception other than
    [JSONDecodeError], which ends the parse before the decoder is reached, the
    object stream is decoded from offset [e + 3]: the brace and the two-byte
    marker are skipped, the decoder starts on the space. *)
Theorem C3_json_end_and_decode_start (data : bytes) (s e : nat) :
  first_at data json_pattern 0 s -> (0 < s)%nat ->
  first_at data stream_marker s e ->
  let at_exit := snd (parse_body data start_frame) in
  json_text data (Z.of_nat s) (Z.of_nat e) =
    decode_utf8_ignore (firstn (S e - s) (skipn s data)) /\
  nth_error data e = Some x7d /\
  nth_error data (e + 1) = Some x73 /\
  nth_error data (e + 2) = Some x72 /\
  nth_error data (e + 3) = Some x20 /\
  match json_fault data (Z.of_nat s) (Z.of_nat e) with
  | None =>
      fst (parse_body data start_frame) = Ok tt /\
      result at_exit = full_result data (Z.of_nat s) (Z.of_nat e) /\
      loads at_exit = [Z.of_nat e + 3]
  | Some err =>
      fst (parse_body data start_frame) = Raise err /\
      is_json_decode_error err = false /\
      result at_exit = interrupted_result data /\
      loads at_exit = []
  end.
Proof.
  intros Hs Hpos He at_exit. subst at_exit.
  pose proof (find_first _ _ _ _ pattern_nonempty Hs) as Fs.
  pose proof (find_first _ _ _ _ marker_nonempty He) as Fe.
  destruct He as (Hle & Hocc & _).
  split; [|split; [|split; [|split; [|split]]]].
  - unfold json_text, slice. rewrite Nat2Z.id.
    now replace (Z.to_nat (Z.of_nat e + 1)) with (S e) by lia.
  - rewrite <- (Nat.add_0_r e) at 1. now rewrite (occurs_at_nth _ _ _ 0 Hocc) by (simpl; lia).
  - now rewrite (occurs_at_nth _ _ _ 1 Hocc) by (simpl; lia).
  - now rewrite (occurs_at_nth _ _ _ 2 Hocc) by (simpl; lia).
  - now rewrite (occurs_at_nth _ _ _ 3 Hocc) by (simpl; lia).
  - destruct (json_fault data (Z.of_nat s) (Z.of_nat e)) as [err|] eqn:F.
    + rewrite (parse_body_fault data (Z.of_nat s) (Z.of_nat e) err)
        by (assumption || lia).
      repeat split. apply (json_fault_error _ _ _ _ F).
    + rewrite (parse_body_json data (Z.of_nat s) (Z.of_nat e)) by (assumption || lia).
      repeat split.
Qed.

(** C8 (amended): when the file is handed to the decoder at some offset and
    the decoder raises there, as it does on a stream that ends early or on a
    string length beyond the buffer, the parse reports nothing: it returns
    normally, the [hierarchy] entry is [None], and the entries are the usual
    ones, none of them an error or an offset. *)
Theorem C8_decode_error_is_swallowed (fs : filesystem) (file_path : string)
    (data : bytes) (pos : Z) (err : exn) :
  fs file_path = Some (File data) ->
  In pos (loads (snd (parse_run fs file_path))) ->
  javaobj_load data pos = Raise err ->
  exists r, parse_qpdata fs file_path = Ok r /\
    dict_get r "hierarchy" = Some PNone /\
    (map fst r = ["version"; "metadata"; "hierarchy"; "raw_strings"] \/
     map fst r = ["version"; "metadata"; "hierarchy"; "raw_strings"; "metadata_raw"]).
Proof.
  intros Hfile Hin Herr. unfold parse_qpdata.
  rewrite (parse_run_file _ _ _ Hfile) in *.
  destruct (parse_body_cases data)
    as [E|[E|(s & e & Hs & He & Fs & Fe & [[F E]|(err' & F & E)])]];
    rewrite E in *; simpl in Hin; try contradiction.
  destruct Hin as [<-|[]].
  eexists. split; [reflexivity|]. unfold full_result. rewrite Herr.
  destruct (json_loads (json_text data s e)); simpl; auto.
Qed.

(** X1: [parse_qpdata] raises [FileNotFoundError] exactly on a path that does
    not exist. *)
Lemma parse_not_found_iff (fs : filesystem) (file_path : string) :
  (exists msg, parse_qpdata fs file_path = Raise (FileNotFoundError msg)) <->
  path_exists fs file_path = false.
Proof.
  unfold parse_qpdata, parse_run, read_file, path_exists.
  destruct (fs file_path) as [[data|]|]; simpl.
  - split; [|discriminate]. intros [msg H]. exfalso.
    destruct (parse_body_cases data)
      as [E|[E|(s & e & _ & _ & _ & _ & [[_ E]|(err & F & E)])]];
      rewrite E in H; try discriminate.
    injection H as ->. apply json_fault_error in F. destruct F as [F _].
    discriminate F.
  - split; [|discriminate]. intros [msg H]. discriminate.
  - split; [reflexivity|]. intros _. eexists. reflexivity.
Qed.

(** X2: a result that [parse_qpdata] returns has the four entries it was
    built with: [version], [metadata], [hierarchy] and [raw_strings]. *)
Lemma parse_result_keys (fs : filesystem) (file_path : string) (r : dict pyval) :
  parse_qpdata fs file_path = Ok r ->
  dict_has r "version" = true /\ dict_has r "metadata" = true /\
  dict_has r "hierarchy" = true /\ dict_has r "raw_strings" = true.
Proof.
  unfold parse_qpdata, parse_run, read_file, path_exists.
  destruct (fs file_path) as [[data|]|]; simpl; try discriminate.
  destruct (parse_body_cases data)
    as [E|[E|(s & e & _ & _ & _ & _ & [[_ E]|(err & _ & E)])]];
    rewrite E; try discriminate; intros [= <-]; simpl; repeat split.
Qed.

End ParseResults.

(** ** Annotation records *)

Lemma take_length (n : nat) (s : string) :
  String.length (take n s) = Nat.min n (String.length s).
Proof.
  revert s. induction n as [|n IH]; intros [|c s]; simpl; try reflexivity.
  now rewrite IH.
Qed.

Lemma take_prefix (n : nat) (s : string) : String.prefix (take n s) s = true.
Proof.
  revert s. induction n as [|n IH]; intros [|c s]; simpl; try reflexivity.
  rewrite IH. destruct (ascii_dec c c); [reflexivity | contradiction].
Qed.

Lemma lower_char_of_upper (c1 c2 : ascii) :
  is_ascii_upper c1 = true -> nat_of_ascii c2 = (nat_of_ascii c1 + 32)%nat ->
  lower_char c1 = lower_char c2.
Proof.
  intros U E.
  assert (E2 : c2 = ascii_of_nat (nat_of_ascii c1 + 32))
    by (rewrite <- E; symmetry; apply ascii_nat_embedding).
  subst c2. clear E.
  destruct c1 as [[|] [|] [|] [|] [|] [|] [|] [|]]; try discriminate U; reflexivity.
Qed.

Lemma same_letter_lower (c1 c2 : ascii) :
  same_letter c1 c2 = true -> lower_char c1 = lower_char c2.
Proof.
  unfold same_letter. rewrite !orb_true_iff, !andb_true_iff.
  intros [[E|[U E]]|[U E]].
  - apply Ascii.eqb_eq in E. now subst.
  - apply Nat.eqb_eq in E. now apply lower_char_of_upper.
  - apply Nat.eqb_eq in E. symmetry. now apply lower_char_of_upper.
Qed.

Lemma ignoring_case_lower (s1 s2 : string) :
  ignoring_case s1 s2 = true -> lower s1 = lower s2.
Proof.
  revert s2. induction s1 as [|c1 r1 IH]; intros [|c2 r2]; simpl; try discriminate.
  - reflexivity.
  - rewrite andb_true_iff. intros [L R].
    now rewrite (same_letter_lower _ _ L), (IH _ R).
Qed.

Section ExtractionResults.
Context {rt : Runtime}.

(** A loop whose every turn appends the records of some nodes. *)
Lemma for_each_emit {A : Type} (xs : list A) (sel : A -> list pyval)
    (body : A -> M (list info) unit) :
  (forall x s, body x s = (Ok tt, (s ++ map extract_annotation_info (sel x))%list)) ->
  forall s, for_each xs body s =
            (Ok tt, (s ++ map extract_annotation_info (flat_map sel xs))%list).
Proof.
  intros Hbody. induction xs as [|x xs IH]; intros s; simpl.
  - unfold ret. now rewrite app_nil_r.
  - unfold bind. rewrite Hbody, IH. now rewrite map_app, app_assoc.
Qed.

Lemma for_each_append_info (items : list pyval) (s : list info) :
  for_each items append_info s =
  (Ok tt, (s ++ map extract_annotation_info items)%list).
Proof.
  rewrite (for_each_emit items (fun x => [x])).
  - f_equal. f_equal. f_equal. induction items; simpl; congruence.
  - reflexivity.
Qed.

(** The part of the search that reads [map]. *)
Lemma search_map (qpdata_obj : pyval) (s : list info) :
  exists r,
    (if hasattr qpdata_obj "map" then
       m <- lift (getattr qpdata_obj "map") ;;
       items <- lift (py_items m) ;;
       for_each items (fun item =>
         let (key, value) := item in
         if contains "annotation" (lower (py_str key)) then append_info value
         else ret tt)
     else ret tt) s =
    (r, (s ++ map extract_annotation_info (mapped_nodes qpdata_obj))%list).
Proof.
  unfold mapped_nodes. destruct (hasattr qpdata_obj "map").
  - unfold bind, lift. destruct (getattr qpdata_obj "map") as [m|e].
    + destruct (py_items m) as [items|e].
      * eexists. apply (for_each_emit items map_nodes).
        intros [key value] s'. unfold map_nodes.
        destruct (contains "annotation" (lower (py_str key))); [reflexivity|].
        unfold ret. simpl. now rewrite app_nil_r.
      * eexists. simpl. now rewrite app_nil_r.
    + eexists. simpl. now rewrite app_nil_r.
  - eexists. unfold ret. simpl. now rewrite app_nil_r.
Qed.

Lemma search_annotations_visits (qpdata_obj : pyval) :
  exists r, search_annotations qpdata_obj [] =
            (r, map extract_annotation_info (visited_nodes qpdata_obj)).
Proof.
  unfold search_annotations, visited_nodes.
  destruct (hasattr qpdata_obj "annotations").
  - unfold bind at 1. unfold bind at 1. unfold lift at 1.
    destruct (getattr qpdata_obj "annotations") as [anns|e]; [|now eexists].
    unfold bind at 1. unfold lift at 1.
    destruct (py_iter anns) as [items|e]; [|now eexists].
    rewrite for_each_append_info. simpl app.
    destruct (search_map qpdata_obj (map extract_annotation_info items)) as [r Hr].
    exists r. rewrite Hr. now rewrite map_app.
  - unfold bind at 1.
    assert (F : (if has_dict qpdata_obj
                 then for_each (obj_dict qpdata_obj) (fun item =>
                   let (key, value) := item in
                   if contains "pathobject" (lower key) || contains "annotation" (lower key)
                   then match value with
                        | PList items => for_each items append_info
                        | _ => append_info value
                        end
                   else ret tt)
                 else ret tt) [] =
                (Ok tt, map extract_annotation_info
                          (flat_map field_nodes (obj_dict qpdata_obj)))).
    { destruct qpdata_obj as [| | | | | | |cls attrs]; try reflexivity.
      simpl has_dict. cbv iota. simpl obj_dict.
      refine (for_each_emit attrs field_nodes _ _ []).
      intros [key value] s. unfold field_nodes.
      destruct (contains "pathobject" (lower key) || contains "annotation" (lower key)).
      - destruct value; try reflexivity. apply for_each_append_info.
      - unfold ret. simpl. now rewrite app_nil_r. }
    rewrite F.
    destruct (search_map qpdata_obj
                (map extract_annotation_info (flat_map field_nodes (obj_dict qpdata_obj))))
      as [r Hr].
    exists r. rewrite Hr. now rewrite map_app.
Qed.

(** Entries written by the attribute loop. *)
Lemma fold_store_keys (items : dict pyval) (acc : dict string) (k : string) :
  In k (map fst (fold_left store_property items acc)) <->
  In k (map fst acc) \/ (In k (map fst items) /\ is_property k = true).
Proof.
  revert acc. induction items as [|[key value] items IH]; intros acc; simpl.
  - tauto.
  - rewrite IH. destruct (is_property key) eqn:E.
    + rewrite dict_set_keys. split.
      * intros [[->|H]|[H P]]; auto.
      * intros [H|[[<-|H] P]]; auto.
    + split.
      * intros [H|[H P]]; auto.
      * intros [H|[[<-|H] P]]; auto. congruence.
Qed.

Lemma fold_store_entries (items : dict pyval) (acc : dict string) (kv : string * string) :
  In kv (fold_left store_property items acc) ->
  In kv acc \/
  exists value, In (fst kv, value) items /\ snd kv = take 200 (py_str value).
Proof.
  revert acc. induction items as [|[key value] items IH]; intros acc; simpl.
  - auto.
  - intros H. destruct (IH _ H) as [Hacc|(v & Hin & Hv)].
    + destruct (is_property key).
      * destruct (dict_set_entries _ _ _ _ Hacc) as [->|Hold]; [|now left].
        right. exists value. simpl. auto.
      * now left.
    + right. exists v. auto.
Qed.



(** C6 (amended): a field of an annotation node is kept as an attribute
    exactly when its lower-cased name contains one of [name], [class], [type],
    [roi], [geometry], [measurement]; so the test does not depend on the case
    of the letters of the name, and neither does the test of the attribute
    names of the root for [pathobject] and [annotation]. *)
Theorem C6_kept_iff_keyword_substring (ann_obj : pyval) (key : string) :
  (In key (map fst (attributes (extract_annotation_info ann_obj))) <->
   In key (map fst (obj_dict ann_obj)) /\
   exists keyword,
     In keyword ["name"; "class"; "type"; "roi"; "geometry"; "measurement"] /\
     contains keyword (lower key) = true) /\
  (forall variant, ignoring_case key variant = true ->
                   is_property variant = is_property key /\
                   forall value, field_nodes (variant, value) = field_nodes (key, value)).
Proof.
  split.
  - assert (P : is_property key = true <->
                exists keyword,
                  In keyword ["name"; "class"; "type"; "roi"; "geometry"; "measurement"] /\
                  contains keyword (lower key) = true).
    { unfold is_property. apply existsb_exists. }
    rewrite <- P. unfold extract_annotation_info. simpl attributes.
    destruct ann_obj; simpl; try tauto.
    rewrite fold_store_keys. simpl. tauto.
  - intros variant H. unfold is_property, field_nodes.
    now rewrite (ignoring_case_lower _ _ H).
Qed.

(** C9: every attribute of an annotation record is the [str] rendering of a
    field of the node cut to its first 200 characters, so none is longer than
    200 characters. *)
Theorem C9_attributes_truncated (ann_obj : pyval) :
  Forall (fun kv : string * string =>
            (String.length (snd kv) <= 200)%nat /\
            exists value,
              In (fst kv, value) (obj_dict ann_obj) /\
              snd kv = take 200 (py_str value) /\
              String.prefix (snd kv) (py_str value) = true /\
              String.length (snd kv) = Nat.min 200 (String.length (py_str value)))
         (attributes (extract_annotation_info ann_obj)).
Proof.
  apply Forall_forall. intros kv Hin.
  unfold extract_annotation_info in Hin. simpl attributes in Hin.
  destruct (has_dict ann_obj); [|contradiction].
  destruct (fold_store_entries _ _ _ Hin) as [[]|(value & Hv & E)].
  split.
  - rewrite E, take_length. apply Nat.le_min_l.
  - exists value. rewrite E. repeat split.
    + exact Hv.
    + apply take_prefix.
    + apply take_length.
Qed.

End ExtractionResults.

(** ** The image loop *)

Lemma bind_ext {S A B : Type} (m1 m2 : M S A) (k1 k2 : A -> M S B) (s : S) :
  (forall s', m1 s' = m2 s') -> (forall a s', k1 a s' = k2 a s') ->
  bind m1 k1 s = bind m2 k2 s.
Proof.
  intros Hm Hk. unfold bind. rewrite Hm. destruct (m2 s) as [[a|e] s']; auto.
Qed.

Lemma try_except_ext {S A : Type} (m1 m2 : M S A) (h1 h2 : exn -> M S A) (s : S) :
  (forall s', m1 s' = m2 s') -> (forall e s', h1 e s' = h2 e s') ->
  try_except m1 h1 s = try_except m2 h2 s.
Proof.
  intros Hm Hh. unfold try_except. rewrite Hm. destruct (m2 s) as [[a|e] s']; auto.
Qed.

Section LoopResults.
Context {rt : Runtime}.

Lemma parse_body_silenced (data : bytes) :
  parse_body (rt := silenced rt) data start_frame = parse_body data start_frame.
Proof.
  destruct (Z_le_gt_dec (find data json_pattern 0) 0) as [L|G].
  - now rewrite !parse_body_no_json.
  - destruct (Z_le_gt_dec (find data stream_marker (find data json_pattern 0)) 0)
      as [L'|G'].
    + now rewrite !parse_body_no_marker by lia.
    + set (s := find data json_pattern 0) in *.
      set (e := find data stream_marker s) in *.
      destruct (json_fault (rt := rt) data s e) as [err|] eqn:F.
      * rewrite (parse_body_fault (rt := rt) data s e err) by (reflexivity || lia || exact F).
        now rewrite (parse_body_fault (rt := silenced rt) data s e err)
          by (reflexivity || lia || exact F).
      * rewrite (parse_body_json (rt := rt) data s e) by (reflexivity || lia || exact F).
        rewrite (parse_body_json (rt := silenced rt) data s e)
          by (reflexivity || lia || exact F).
        unfold full_result. simpl javaobj_load.
        destruct (javaobj_load data _); reflexivity.
Qed.

Lemma parse_qpdata_silenced (fs : filesystem) (file_path : string) :
  parse_qpdata (rt := silenced rt) fs file_path = parse_qpdata fs file_path.
Proof.
  unfold parse_qpdata, parse_run.
  destruct (negb (path_exists fs file_path)); [reflexivity|].
  destruct (read_file fs file_path); [|reflexivity].
  now rewrite parse_body_silenced.
Qed.

Lemma record_parse_silenced (fs : filesystem) (classes : pyval) (verbose : bool)
    (idx : Z) (path : string) (s : dict pyval) :
  record_parse (rt := silenced rt) fs classes verbose idx path s =
  record_parse fs classes verbose idx path s.
Proof. unfold record_parse. now rewrite parse_qpdata_silenced. Qed.

Lemma image_entry_silenced (fs : filesystem) (data_path : string) (classes : pyval)
    (verbose : bool) (idx : Z) (image : pyval) (s : dict pyval) :
  image_entry (rt := silenced rt) fs data_path classes verbose idx image s =
  image_entry fs data_path classes verbose idx image s.
Proof.
  unfold image_entry.
  apply bind_ext; [reflexivity|]. intros has_builder s1.
  apply bind_ext; [reflexivity|]. intros _ s2.
  apply bind_ext; [reflexivity|]. intros has_id s3.
  destruct has_id; [|reflexivity].
  apply bind_ext; [reflexivity|]. intros entryID s4.
  apply bind_ext; [reflexivity|]. intros _ s5.
  change (@py_str (silenced rt)) with (@py_str rt). cbv zeta.
  destruct (path_exists fs (path_join data_path (py_str entryID))); [|reflexivity].
  apply bind_ext; [reflexivity|]. intros _ s6.
  apply bind_ext; [reflexivity|]. intros _ s7.
  apply try_except_ext; [|reflexivity].
  intros s8. apply record_parse_silenced.
Qed.

Lemma loop_silenced (fs : filesystem) (data_path : string) (classes : pyval)
    (verbose : bool) (images : list pyval) :
  forall (idx : Z) (image_infos : list (dict pyval)),
    get_qupath_info_loop (rt := silenced rt) fs data_path classes verbose idx images image_infos =
    get_qupath_info_loop fs data_path classes verbose idx images image_infos.
Proof.
  induction images as [|image rest IH]; intros idx image_infos; simpl.
  - reflexivity.
  - apply bind_ext.
    + intros s'. now rewrite image_entry_silenced.
    + intros _ s'. apply IH.
Qed.

End LoopResults.

(** ** Worked examples *)

(** A parse of [full_container]: the version text is cut from offset 19 to
    the first [t], the JSON is loaded, and the decoder, started on the space
    before the stream, answers [BadMagic], which is dropped. *)
Example full_container_parse :
  parse_run (rt := reference_runtime) (one_file full_container) "data.qpdata" =
    (Ok tt,
     {| result := [("version", PStr ".0");
                   ("metadata", PDict [(PStr "dataVersion", PInt 1)]);
                   ("hierarchy", PNone);
                   ("raw_strings",
                    PList [PStr (string_of_list_byte (firstn 43 full_container))])];
        loads := [42] |}) /\
  javaobj_load (Runtime := reference_runtime) full_container 42 =
    Raise (LibraryError "BadMagic").
Proof. split; reflexivity. Qed.

(** C1, as stated, fails on a file that holds a complete object stream and no
    JSON: the stream by itself decodes, yet the parse ends with
    [UnboundLocalError] and the decoder is never called. *)
Lemma C1_counterexample :
  find stream_only json_pattern 0 = -1 /\
  decode_stream stream_only = inr Null /\
  parse_run (rt := reference_runtime) (one_file stream_only) "data.qpdata" =
    (Raise (UnboundLocalError "json_end"),
     {| result := [("version", PNone); ("metadata", PNone); ("hierarchy", PNone);
                   ("raw_strings", PList [])];
        loads := [] |}) /\
  parse_qpdata (rt := reference_runtime) (one_file stream_only) "data.qpdata" =
    Raise (UnboundLocalError "json_end").
Proof. repeat split. Qed.

(** C1 (amended) on [stream_only], which holds no leading key. *)
Lemma C1_witness :
  let at_exit :=
    snd (parse_run (rt := reference_runtime) (one_file stream_only) "data.qpdata") in
  dict_get (result at_exit) "metadata" = Some PNone /\
  dict_get (result at_exit) "metadata_raw" = None /\
  dict_get (result at_exit) "hierarchy" = Some PNone /\
  loads at_exit = [].
Proof.
  apply (C1_no_json_no_decode (rt := reference_runtime)
           (one_file stream_only) "data.qpdata" stream_only).
  - reflexivity.
  - intros i. apply (find_none stream_only json_pattern 0 i).
    + discriminate.
    + reflexivity.
    + apply Nat.le_0_l.
Defined.

(** C2 at a failing input: a file without the version header, and without
    the leading key, does not parse. *)
Theorem C2_headerless_file_raises :
  startswith (b "hello") version_prefix = false /\
  parse_qpdata (rt := reference_runtime) (one_file (b "hello")) "data.qpdata" =
    Raise (UnboundLocalError "json_end").
Proof. split; reflexivity. Qed.

(** C3, as stated, fails three times.  In [short_container] the brace is at
    15 and the two-byte marker at 16, and the decoder is started at 18.  In
    [two_markers] the first brace followed by the two-byte marker is at 15,
    and the JSON text runs through the brace at 19.  In [long_integer] the
    brace is at 5016, [json.loads] raises [ValueError], and the decoder is not
    started at all. *)
Lemma C3_counterexample :
  (first_at short_container json_pattern 0 1 /\
   first_at short_container (b "}sr") 1 15 /\
   loads (snd (parse_body (rt := reference_runtime) short_container start_frame)) = [18]) /\
  (first_at two_markers json_pattern 0 1 /\
   first_at two_markers (b "}sr") 1 15 /\
   dict_get (result (snd (parse_body (rt := reference_runtime) two_markers start_frame)))
     "metadata_raw" = Some (PStr (string_of_list_byte (json_pattern ++ b "}sr#}")%list)) /\
   loads (snd (parse_body (rt := reference_runtime) two_markers start_frame)) = [22]) /\
  (first_at long_integer json_pattern 0 1 /\
   first_at long_integer (b "}sr") 1 (Z.to_nat 5016) /\
   parse_body (rt := reference_runtime) long_integer start_frame =
     (Raise (ValueError "Exceeds the limit (4300 digits) for integer string conversion"),
      {| result := [("version", PNone); ("metadata", PNone); ("hierarchy", PNone);
                    ("raw_strings", PList [])];
         loads := [] |})).
Proof.
  split; [|split].
  - split; [|split]; try reflexivity.
    + apply (find_found short_container json_pattern 0 1 eq_refl). discriminate.
    + apply (find_found short_container (b "}sr") 1 15 eq_refl). discriminate.
  - split; [|split; [|split]]; try reflexivity.
    + apply (find_found two_markers json_pattern 0 1 eq_refl). discriminate.
    + apply (find_found two_markers (b "}sr") 1 15 eq_refl). discriminate.
  - split; [|split].
    + apply (find_found long_integer json_pattern 0 1); [vm_compute; reflexivity | discriminate].
    + apply (find_found long_integer (b "}sr") 1 5016);
        [vm_compute; reflexivity | discriminate].
    + vm_compute. reflexivity.
Qed.

(** C3 (amended) on [short_container]: key at 1, brace at 15, decoder at 18. *)
Lemma C3_witness :
  let at_exit := snd (parse_body (rt := reference_runtime) short_container start_frame) in
  json_text (rt := reference_runtime) short_container 1 15 =
    decode_ascii_ignore (firstn 15 (skipn 1 short_container)) /\
  nth_error short_container 15 = Some x7d /\
  nth_error short_container 16 = Some x73 /\
  nth_error short_container 17 = Some x72 /\
  nth_error short_container 18 = Some x20 /\
  fst (parse_body (rt := reference_runtime) short_container start_frame) = Ok tt /\
  result at_exit = full_result (rt := reference_runtime) short_container 1 15 /\
  loads at_exit = [18].
Proof.
  apply (C3_json_end_and_decode_start (rt := reference_runtime) short_container 1 15).
  - apply (find_found short_container json_pattern 0 1 eq_refl). discriminate.
  - apply Nat.lt_0_1.
  - apply (find_found short_container stream_marker 1 15 eq_refl). discriminate.
Defined.

(** A parse of [long_integer]: the key is at 1 and the brace at 5016, yet
    [json.loads] raises [ValueError] on the 5000 digits; the parse ends there,
    before the readable strings are collected and before the decoder is
    reached. *)
Example long_integer_parse :
  find long_integer json_pattern 0 = 1 /\
  find long_integer stream_marker 1 = 5016 /\
  parse_run (rt := reference_runtime) (one_file long_integer) "data.qpdata" =
    (Raise (ValueError "Exceeds the limit (4300 digits) for integer string conversion"),
     {| result := [("version", PNone); ("metadata", PNone); ("hierarchy", PNone);
                   ("raw_strings", PList [])];
        loads := [] |}).
Proof. vm_compute. repeat split. Qed.

(** C4, as stated, fails on [sample_project]: the decode of image 7 fails, the
    entry of image 7 has no [error], and nothing tells the caller. *)
Lemma C4_counterexample :
  javaobj_load (Runtime := reference_runtime) short_container 18 =
    Raise (LibraryError "Desync") /\
  get_qupath_info_loop (rt := reference_runtime) sample_project "proj/data" (PDict [])
    false 1 sample_images [] =
    (Ok tt, [sample_entry; [("entryID", PInt 8)]]).
Proof. split; reflexivity. Qed.


(** C6, as stated, fails on a field called [type], and on one called
    [subclass]: both are kept, neither matches a keyword of the specification. *)
Lemma C6_counterexample :
  attributes (extract_annotation_info (rt := reference_runtime)
                (PObj "qupath.lib.roi.EllipseROI"
                   [("type", PStr "ellipse"); ("subclass", PStr "none")])) =
    [("type", "ellipse"); ("subclass", "none")] /\
  spec_is_property "type" = false /\
  spec_is_property "subclass" = false.
Proof. repeat split. Qed.

(** C6 (amended) on [pathClass] written in capitals. *)
Lemma C6_witness :
  ignoring_case "pathClass" "PATHCLASS" = true /\
  is_property "PATHCLASS" = is_property "pathClass".
Proof.
  split.
  - reflexivity.
  - apply (proj2 (C6_kept_iff_keyword_substring (rt := reference_runtime) PNone "pathClass")
             "PATHCLASS").
    reflexivity.
Defined.

(** C8, as stated, fails on [short_container], a file that ends one byte
    after the marker: the stream handed to the decoder is that one byte, the
    decoder answers a desync at offset 1, the buffer length, and the parse
    returns its entries with no hierarchy and no error. *)
Lemma C8_counterexample :
  skipn 18 short_container = [x20] /\
  decode_stream [x20] = inl (Desync 1) /\
  javaobj_load (Runtime := reference_runtime) short_container 18 =
    Raise (LibraryError "Desync") /\
  parse_qpdata (rt := reference_runtime) (one_file short_container) "data.qpdata" =
    Ok [("version", PNone); ("metadata", PNone); ("hierarchy", PNone);
        ("raw_strings", PList [PStr (string_of_list_byte short_container)]);
        ("metadata_raw", PStr (string_of_list_byte (json_pattern ++ b "}")%list))].
Proof. repeat split. Qed.

(** C8 (amended) on [short_container], where the decoder raises at offset 18. *)
Lemma C8_witness :
  exists r,
    parse_qpdata (rt := reference_runtime) (one_file short_container) "data.qpdata" = Ok r /\
    dict_get r "hierarchy" = Some PNone /\
    (map fst r = ["version"; "metadata"; "hierarchy"; "raw_strings"] \/
     map fst r = ["version"; "metadata"; "hierarchy"; "raw_strings"; "metadata_raw"]).
Proof.
  apply (C8_decode_error_is_swallowed (rt := reference_runtime)
           (one_file short_container) "data.qpdata" short_container 18
           (LibraryError "Desync")).
  - reflexivity.
  - left. reflexivity.
  - reflexivity.
Defined.

(** C10 at a failing input: the path exists, the file is empty, and the
    parse raises instead of returning its result. *)
Theorem C10_existing_file_raises :
  path_exists (one_file []) "data.qpdata" = true /\
  parse_qpdata (rt := reference_runtime) (one_file []) "data.qpdata" =
    Raise (UnboundLocalError "json_end").
Proof. split; reflexivity. Qed.

(** X2 on the result of parsing [short_container]. *)
Lemma parse_result_keys_witness :
  let r := [("version", PNone); ("metadata", PNone); ("hierarchy", PNone);
            ("raw_strings", PList [PStr (string_of_list_byte short_container)]);
            ("metadata_raw", PStr (string_of_list_byte (json_pattern ++ b "}")%list))] in
  dict_has r "version" = true /\ dict_has r "metadata" = true /\
  dict_has r "hierarchy" = true /\ dict_has r "raw_strings" = true.
Proof.
  apply (parse_result_keys (rt := reference_runtime)
           (one_file short_container) "data.qpdata").
  reflexivity.
Defined.

(** * Further properties *)

(** ** The container parser: what a result holds *)

Lemma string_of_list_byte_length (m : bytes) :
  String.length (string_of_list_byte m) = List.length m.
Proof.
  unfold string_of_list_byte. induction m as [|c m IH]; simpl; congruence.
Qed.

Lemma filter_all {A : Type} (f : A -> bool) (l : list A) :
  Forall (fun x => f x = true) l -> filter f l = l.
Proof.
  induction 1 as [|x l Hx _ IH]; simpl; [reflexivity|]. now rewrite Hx, IH.
Qed.

Lemma printable_below_128 (c : byte) :
  printable c = true -> (Byte.to_nat c <? 128)%nat = true.
Proof.
  unfold printable. rewrite andb_true_iff. intros [_ H].
  apply Nat.leb_le in H. apply Nat.ltb_lt. lia.
Qed.

(** Decoding a printable run loses nothing. *)
Lemma decode_ascii_printable (m : bytes) :
  Forall (fun c => printable c = true) m ->
  list_byte_of_string (decode_ascii_ignore m) = m /\
  String.length (decode_ascii_ignore m) = List.length m.
Proof.
  intros H. unfold decode_ascii_ignore.
  rewrite filter_all.
  - split; [apply list_byte_of_string_of_list_byte | apply string_of_list_byte_length].
  - eapply Forall_impl; [|exact H]. apply printable_below_128.
Qed.

Lemma flush_run_in (run m : bytes) :
  In m (flush_run run) -> m = rev run /\ (10 <= List.length run)%nat.
Proof.
  unfold flush_run. destruct (Nat.leb_spec 10 (List.length run)); simpl.
  - intros [<-|[]]. now split.
  - contradiction.
Qed.

(** Every match of the scan is a maximal run of the scanned buffer. *)
Lemma printable_runs_sound (data run pre : bytes) (m : bytes) :
  Forall (fun c => printable c = true) run -> ends_unprintable pre ->
  In m (printable_runs data run) ->
  (10 <= List.length m)%nat /\
  Forall (fun c => printable c = true) m /\
  exists a c,
    (pre ++ rev run ++ data)%list = (a ++ m ++ c)%list /\
    ends_unprintable a /\ starts_unprintable c.
Proof.
  revert run pre. induction data as [|x rest IH]; intros run pre Hrun Hpre Hin; simpl in Hin.
  - apply flush_run_in in Hin. destruct Hin as [-> Hlen].
    repeat split.
    + now rewrite length_rev.
    + now apply Forall_rev.
    + exists pre, []. split; [reflexivity | split; [exact Hpre | exact I]].
  - destruct (printable x) eqn:Px.
    + destruct (IH (x :: run) pre) as (Hl & Hp & a & c & E & Ha & Hc); auto.
      split; [exact Hl | split; [exact Hp |]]. exists a, c.
      split; [|split; assumption].
      rewrite <- E. simpl. now rewrite <- !app_assoc.
    + apply in_app_or in Hin. destruct Hin as [Hin|Hin].
      * apply flush_run_in in Hin. destruct Hin as [-> Hlen].
        repeat split.
        -- now rewrite length_rev.
        -- now apply Forall_rev.
        -- exists pre, (x :: rest). split; [reflexivity | split; [exact Hpre | exact Px]].
      * destruct (IH [] (pre ++ rev run ++ [x])%list) as (Hl & Hp & a & c & E & Ha & Hc); auto.
        { right. exists (pre ++ rev run)%list, x. split; [now rewrite <- app_assoc | exact Px]. }
        split; [exact Hl | split; [exact Hp |]]. exists a, c.
        split; [|split; assumption].
        rewrite <- E. simpl. now rewrite <- !app_assoc.
Qed.

Lemma findall_printable_sound (data m : bytes) :
  In m (findall_printable data) -> maximal_run data m.
Proof.
  intros Hin. unfold findall_printable in Hin.
  destruct (printable_runs_sound data [] [] m (Forall_nil _) (or_introl eq_refl) Hin)
    as (Hl & Hp & a & c & E & Ha & Hc).
  split; [exact Hl | split; [exact Hp |]]. exists a, c.
  split; [exact E | split; assumption].
Qed.

Section ParseExtras.
Context {rt : Runtime}.

(** In a run that completes, the entries [version] and [raw_strings] are
    the readings [version_value] and [raw_strings_value]. *)
Lemma exit_version_and_strings (data : bytes) (at_exit : frame) :
  parse_body data start_frame = (Ok tt, at_exit) ->
  dict_get (result at_exit) "version" = Some (version_value data) /\
  dict_get (result at_exit) "raw_strings" = Some (raw_strings_value data).
Proof.
  destruct (parse_body_cases data)
    as [E|[E|(s & e & _ & _ & _ & _ & [[_ E]|(err & _ & E)])]]; rewrite E;
    try discriminate; intros [= <-]; split; reflexivity.
Qed.

Lemma parse_ok_body (fs : filesystem) (file_path : string) (r : dict pyval) :
  parse_qpdata fs file_path = Ok r ->
  exists data l, fs file_path = Some (File data) /\
                 parse_body data start_frame = (Ok tt, {| result := r; loads := l |}).
Proof.
  unfold parse_qpdata, parse_run, path_exists, read_file.
  destruct (fs file_path) as [[data|]|]; simpl; try discriminate.
  destruct (parse_body data start_frame) as [[[]|e] [r' l]] eqn:E; [|discriminate].
  intros [= <-]. exists data, l. split; [reflexivity | exact E].
Qed.

(** The two shapes of a result that is returned. *)
Lemma parse_ok_result (fs : filesystem) (file_path : string) (r : dict pyval) :
  parse_qpdata fs file_path = Ok r ->
  exists data, fs file_path = Some (File data) /\
    (r = bare_result data \/
     exists s e, 0 < s /\ 0 < e /\ find data json_pattern 0 = s /\
                 find data stream_marker s = e /\ json_fault data s e = None /\
                 r = full_result data s e).
Proof.
  intros Hok. destruct (parse_ok_body _ _ _ Hok) as (data & l & Hfile & Hbody).
  exists data. split; [exact Hfile|].
  destruct (parse_body_cases data)
    as [E|[E|(s & e & Hs & He & Fs & Fe & [[F E]|(err & F & E)])]];
    rewrite E in Hbody.
  - discriminate.
  - injection Hbody as <- _. now left.
  - injection Hbody as <- _. right. exists s, e. auto 10.
  - discriminate.
Qed.

End ParseExtras.

Lemma in_firstn {A : Type} (n : nat) (l : list A) (x : A) :
  In x (firstn n l) -> In x l.
Proof.
  revert l. induction n as [|n IH]; intros [|y l]; simpl; try contradiction.
  intros [->|H]; [now left | right; now apply IH].
Qed.

Lemma occurs_at_byte (data : bytes) (c : byte) (j : nat) :
  occurs_at data [c] j -> nth_error data j = Some c.
Proof.
  intros H. rewrite <- (Nat.add_0_r j).
  now rewrite (occurs_at_nth data [c] j 0 H) by (simpl; lia).
Qed.

Section ResultFacts.
Context {rt : Runtime}.

(** X3: in a result that is returned, [version] is the text decoded from the
    bytes between offset 19 and the first byte [0x74] at or after it when the
    file starts with the header prefix and has such a byte, and [None] when
    the prefix is absent or no [0x74] follows offset 19. *)
Theorem version_entry_spec (fs : filesystem) (file_path : string) (data : bytes)
    (r : dict pyval) :
  fs file_path = Some (File data) -> parse_qpdata fs file_path = Ok r ->
  (forall e, startswith data version_prefix = true -> first_at data [x74] 19 e ->
     dict_get r "version" =
       Some (PStr (decode_utf8_ignore (firstn (e - 19) (skipn 19 data))))) /\
  (startswith data version_prefix = false \/
   (forall j, (19 <= j)%nat -> nth_error data j <> Some x74) ->
   dict_get r "version" = Some PNone).
Proof.
  intros Hfile Hok.
  destruct (parse_ok_body _ _ _ Hok) as (data' & l & Hfile' & Hbody).
  rewrite Hfile in Hfile'. injection Hfile' as <-.
  pose proof (proj1 (exit_version_and_strings data _ Hbody)) as V.
  simpl in V. rewrite V. unfold version_value. split.
  - intros e Hpre He. rewrite Hpre.
    assert (F : find data [x74] 19 = Z.of_nat e)
      by (apply (find_first data [x74] 19 e); [discriminate | exact He]).
    rewrite F. destruct He as (Hle & _).
    destruct (Z.gtb_spec (Z.of_nat e) 0); [|lia].
    unfold slice. rewrite Nat2Z.id. reflexivity.
  - intros [Habs|Hno].
    + now rewrite Habs.
    + assert (F : find data [x74] 19 = -1).
      { apply (find_absent data [x74] 19). intros j Hj Hocc.
        exact (Hno j Hj (occurs_at_byte _ _ _ Hocc)). }
      rewrite F. now destruct (startswith data version_prefix).
Qed.

Lemma first_at_unique (data sub : bytes) (start i j : nat) :
  sub <> [] -> first_at data sub start i -> first_at data sub start j -> i = j.
Proof.
  intros Hne Hi Hj.
  apply (find_first _ _ _ _ Hne) in Hi. apply (find_first _ _ _ _ Hne) in Hj. lia.
Qed.

(** The ways a parse of an existing regular file ends, by where the leading
    key and the marker are first read. *)
Lemma parse_outcome_cases (fs : filesystem) (file_path : string) (data : bytes) :
  fs file_path = Some (File data) ->
  ((forall s, (0 < s)%nat -> ~ first_at data json_pattern 0 s) /\
   parse_qpdata fs file_path = Raise (UnboundLocalError "json_end")) \/
  (exists s, (0 < s)%nat /\ first_at data json_pattern 0 s /\
     (((forall e, ~ first_at data stream_marker s e) /\
       parse_qpdata fs file_path = Ok (bare_result data)) \/
      (exists e, first_at data stream_marker s e /\
         match json_fault data (Z.of_nat s) (Z.of_nat e) with
         | None => parse_qpdata fs file_path =
                     Ok (full_result data (Z.of_nat s) (Z.of_nat e))
         | Some err => parse_qpdata fs file_path = Raise err
         end))).
Proof.
  intros Hfile. unfold parse_qpdata. rewrite (parse_run_file _ _ _ Hfile).
  destruct (Z_le_gt_dec (find data json_pattern 0) 0) as [L|G].
  - left. rewrite (parse_body_no_json data L). split; [|reflexivity].
    intros s Hs Hf. apply (find_first _ _ _ _ pattern_nonempty) in Hf.
    change (Z.of_nat 0) with 0 in Hf. lia.
  - right.
    assert (F : first_at data json_pattern 0 (Z.to_nat (find data json_pattern 0)))
      by (apply (find_found data json_pattern 0 (find data json_pattern 0) eq_refl); lia).
    remember (Z.to_nat (find data json_pattern 0)) as s eqn:Es.
    assert (Fs : find data json_pattern 0 = Z.of_nat s) by lia.
    exists s. split; [lia|]. split; [exact F|].
    destruct (Z_le_gt_dec (find data stream_marker (Z.of_nat s)) 0) as [L'|G'].
    + left. rewrite (parse_body_no_marker data) by (rewrite ?Fs; lia).
      split; [|reflexivity].
      intros e He. pose proof (proj1 He) as Hle.
      apply (find_first _ _ _ _ marker_nonempty) in He. lia.
    + right.
      assert (F' : first_at data stream_marker s
                     (Z.to_nat (find data stream_marker (Z.of_nat s))))
        by (apply (find_found data stream_marker s _ eq_refl); lia).
      remember (Z.to_nat (find data stream_marker (Z.of_nat s))) as e eqn:Ee.
      assert (Fe : find data stream_marker (Z.of_nat s) = Z.of_nat e) by lia.
      exists e. split; [exact F'|].
      destruct (json_fault data (Z.of_nat s) (Z.of_nat e)) as [err|] eqn:J.
      * now rewrite (parse_body_fault data (Z.of_nat s) (Z.of_nat e) err)
          by (assumption || lia).
      * now rewrite (parse_body_json data (Z.of_nat s) (Z.of_nat e))
          by (assumption || lia).
Qed.

(** X4: how a parse of an existing regular file ends.  It raises
    [UnboundLocalError] exactly when the leading key [{"dataVersion"] is not
    read at any offset above 0 as its first occurrence; it returns a result
    exactly when the key is first read at an offset [s > 0] and [json.loads],
    if a marker from [s] on lets it be called, returns or raises
    [JSONDecodeError]; and any other exception of [json.loads] is the
    exception of the parse. *)
Theorem parse_outcome_by_key (fs : filesystem) (file_path : string) (data : bytes) :
  fs file_path = Some (File data) ->
  (parse_qpdata fs file_path = Raise (UnboundLocalError "json_end") <->
   (forall s, (0 < s)%nat -> ~ first_at data json_pattern 0 s)) /\
  ((exists r, parse_qpdata fs file_path = Ok r) <->
   (exists s, (0 < s)%nat /\ first_at data json_pattern 0 s /\
      forall e, first_at data stream_marker s e ->
                json_fault data (Z.of_nat s) (Z.of_nat e) = None)) /\
  (forall s e err,
     (0 < s)%nat -> first_at data json_pattern 0 s -> first_at data stream_marker s e ->
     json_fault data (Z.of_nat s) (Z.of_nat e) = Some err ->
     parse_qpdata fs file_path = Raise err).
Proof.
  intros Hfile.
  destruct (parse_outcome_cases _ _ _ Hfile)
    as [[N E]|(s & Hs & Fs & [[N E]|(e & Fe & E)])].
  - rewrite E. split; [|split].
    + split; [intros _; exact N | reflexivity].
    + split; [intros [r H]; discriminate|].
      intros (s & Hs & Fs & _). exfalso. exact (N s Hs Fs).
    + intros s e err Hs Fs. exfalso. exact (N s Hs Fs).
  - rewrite E. split; [|split].
    + split; [discriminate|]. intros N'. exfalso. exact (N' s Hs Fs).
    + split; [|intros _; eexists; reflexivity].
      intros _. exists s. split; [exact Hs|]. split; [exact Fs|].
      intros e Fe. exfalso. exact (N e Fe).
    + intros s' e err Hs' Fs' Fe.
      rewrite (first_at_unique _ _ _ _ _ pattern_nonempty Fs' Fs) in Fe.
      exfalso. exact (N e Fe).
  - destruct (json_fault data (Z.of_nat s) (Z.of_nat e)) as [err|] eqn:J;
      rewrite E; (split; [|split]).
    + split; [|intros N'; exfalso; exact (N' s Hs Fs)].
      intros [= ->]. apply json_fault_error in J. destruct J as [J _]. discriminate J.
    + split; [intros [r H]; discriminate|].
      intros (s' & Hs' & Fs' & H). exfalso.
      rewrite (first_at_unique _ _ _ _ _ pattern_nonempty Fs' Fs) in H.
      rewrite (H e Fe) in J. discriminate J.
    + intros s' e' err' Hs' Fs' Fe'.
      rewrite (first_at_unique _ _ _ _ _ pattern_nonempty Fs' Fs) in Fe' |- *.
      rewrite (first_at_unique _ _ _ _ _ marker_nonempty Fe' Fe).
      rewrite J. now intros [= ->].
    + split; [discriminate|]. intros N'. exfalso. exact (N' s Hs Fs).
    + split; [|intros _; eexists; reflexivity].
      intros _. exists s. split; [exact Hs|]. split; [exact Fs|].
      intros e' Fe'. now rewrite (first_at_unique _ _ _ _ _ marker_nonempty Fe' Fe).
    + intros s' e' err' Hs' Fs' Fe'.
      rewrite (first_at_unique _ _ _ _ _ pattern_nonempty Fs' Fs) in Fe' |- *.
      rewrite (first_at_unique _ _ _ _ _ marker_nonempty Fe' Fe).
      rewrite J. discriminate.
Qed.

End ResultFacts.

Section StreamFacts.
Context {rt : Runtime}.

(** The byte on which the decoder is started is the space of [}sr ]. *)
Lemma decode_offset_byte (data : bytes) (s e : Z) :
  0 < s -> find data stream_marker s = e -> 0 < e ->
  nth_error data (Z.to_nat (e + 3)) = Some x20 /\
  nth_error data (Z.to_nat (e + 3) - 3) = Some x7d.
Proof.
  intros Hs Fe He.
  assert (F : first_at data stream_marker (Z.to_nat s) (Z.to_nat e)).
  { apply find_found; [|lia]. now rewrite Z2Nat.id by lia. }
  destruct F as (_ & Hocc & _).
  replace (Z.to_nat (e + 3)) with (Z.to_nat e + 3)%nat by lia. split.
  - now rewrite (occurs_at_nth _ _ _ 3 Hocc) by (simpl; lia).
  - replace (Z.to_nat e + 3 - 3)%nat with (Z.to_nat e + 0)%nat by lia.
    now rewrite (occurs_at_nth _ _ _ 0 Hocc) by (simpl; lia).
Qed.

(** X5: the [raw_strings] of a result are at most thirty strings; each is at
    least ten characters long and is, byte for byte, a run of printable ASCII
    of the file that no printable byte precedes or follows. *)
Theorem raw_strings_are_maximal_runs (fs : filesystem) (file_path : string)
    (data : bytes) (r : dict pyval) :
  fs file_path = Some (File data) -> parse_qpdata fs file_path = Ok r ->
  exists strs,
    dict_get r "raw_strings" = Some (PList (map PStr strs)) /\
    (List.length strs <= 30)%nat /\
    Forall (fun text => (10 <= String.length text)%nat /\
                        maximal_run data (list_byte_of_string text)) strs.
Proof.
  intros Hfile Hok.
  destruct (parse_ok_body _ _ _ Hok) as (data' & l & Hfile' & Hbody).
  rewrite Hfile in Hfile'. injection Hfile' as <-.
  pose proof (proj2 (exit_version_and_strings data _ Hbody)) as V.
  simpl in V.
  exists (map decode_ascii_ignore (firstn 30 (findall_printable data))).
  split; [|split].
  - rewrite V. unfold raw_strings_value. now rewrite map_map.
  - rewrite length_map. apply firstn_le_length.
  - apply Forall_forall. intros text Hin.
    apply in_map_iff in Hin. destruct Hin as (m & <- & Hm).
    apply in_firstn in Hm. apply findall_printable_sound in Hm.
    destruct (decode_ascii_printable m (proj1 (proj2 Hm))) as [Hb Hl].
    rewrite Hb, Hl. split; [apply Hm | exact Hm].
Qed.

(** X6: a result has a [metadata_raw] entry only when its [metadata] is
    [None]: the entry is the first 500 characters of a JSON text on which
    [json.loads] raised [JSONDecodeError]. *)
Theorem metadata_raw_only_without_metadata (fs : filesystem) (file_path : string)
    (data : bytes) (r : dict pyval) (v : pyval) :
  fs file_path = Some (File data) -> parse_qpdata fs file_path = Ok r ->
  dict_get r "metadata_raw" = Some v ->
  dict_get r "metadata" = Some PNone /\
  exists s e,
    (exists msg, json_loads (json_text data s e) = Raise (JSONDecodeError msg)) /\
    v = PStr (take 500 (json_text data s e)) /\
    (String.length (take 500 (json_text data s e)) <= 500)%nat.
Proof.
  intros Hfile Hok Hraw.
  destruct (parse_ok_result _ _ _ Hok)
    as (data' & Hfile' & [->|(s & e & _ & _ & _ & _ & F & ->)]);
    rewrite Hfile in Hfile'; injection Hfile' as <-; [discriminate Hraw|].
  unfold full_result, json_fault in *.
  destruct (json_loads (json_text data s e)) as [metadata|err] eqn:J; simpl in Hraw;
    [discriminate|].
  injection Hraw as <-. split; [reflexivity|].
  exists s, e. split; [|split; [reflexivity|]].
  - destruct err; try discriminate F. now exists msg.
  - rewrite take_length. apply Nat.le_min_l.
Qed.

(** X7: a parse hands the file to the decoder at most once, and then at an
    offset of at least 4 that holds a space, three bytes after a closing
    brace. *)
Theorem decoder_started_on_space (fs : filesystem) (file_path : string)
    (data : bytes) (pos : Z) :
  fs file_path = Some (File data) ->
  In pos (loads (snd (parse_run fs file_path))) ->
  loads (snd (parse_run fs file_path)) = [pos] /\
  4 <= pos /\
  nth_error data (Z.to_nat pos) = Some x20 /\
  nth_error data (Z.to_nat pos - 3) = Some x7d.
Proof.
  intros Hfile Hin. rewrite (parse_run_file _ _ _ Hfile) in *.
  destruct (parse_body_cases data)
    as [E|[E|(s & e & Hs & He & Fs & Fe & [[J E]|(err & J & E)])]];
    rewrite E in *; simpl in Hin; try contradiction.
  destruct Hin as [<-|[]]. simpl.
  split; [reflexivity|]. split.
  - assert (F : first_at data stream_marker (Z.to_nat s) (Z.to_nat e)).
    { apply find_found; [|lia]. now rewrite Z2Nat.id by lia. }
    destruct F as (Hle & _). lia.
  - now apply (decode_offset_byte data s e).
Qed.

(** X8: with a decoder that raises whenever the byte it is started on is not
    [0xAC], the first magic byte of a Java object stream, no result of
    [parse_qpdata] ever has a hierarchy. *)
Theorem hierarchy_never_decoded (fs : filesystem) (file_path : string)
    (r : dict pyval) :
  (forall data pos, nth_error data (Z.to_nat pos) <> Some xac ->
                    exists err, javaobj_load data pos = Raise err) ->
  parse_qpdata fs file_path = Ok r ->
  dict_get r "hierarchy" = Some PNone.
Proof.
  intros Hdec Hok.
  destruct (parse_ok_result _ _ _ Hok)
    as (data & Hfile & [->|(s & e & Hs & He & Fs & Fe & F & ->)]);
    [reflexivity|].
  destruct (decode_offset_byte data s e Hs Fe He) as [Hsp _].
  destruct (Hdec data (e + 3)) as [err Herr].
  { rewrite Hsp. discriminate. }
  unfold full_result. rewrite Herr.
  destruct (json_loads (json_text data s e)); reflexivity.
Qed.

End StreamFacts.

(** ** Annotation records: order and failures *)

Lemma dict_set_fresh {V : Type} (d : dict V) (k : string) (v : V) :
  ~ In k (map fst d) -> dict_set d k v = (d ++ [(k, v)])%list.
Proof.
  induction d as [|[k' v'] d IH]; simpl; intros H; [reflexivity|].
  destruct (String.eqb_spec k' k) as [->|N].
  - exfalso. apply H. now left.
  - rewrite IH; [reflexivity|]. intros Hin. apply H. now right.
Qed.

Lemma getattr_hasattr (o : pyval) (name : string) (v : pyval) :
  getattr o name = Ok v -> hasattr o name = true.
Proof.
  unfold getattr, hasattr, dict_has. now destruct (dict_get (obj_dict o) name).
Qed.

Section ExtractionFacts.
Context {rt : Runtime}.

Lemma fold_store_fresh (items : dict pyval) (acc : dict string) :
  NoDup (map fst items) ->
  (forall k, In k (map fst items) -> ~ In k (map fst acc)) ->
  fold_left store_property items acc =
  (acc ++ map render (filter (fun item => is_property (fst item)) items))%list.
Proof.
  revert acc. induction items as [|[key value] items IH]; intros acc Hnd Hfresh; simpl.
  - now rewrite app_nil_r.
  - inversion Hnd as [|? ? Hkey Hrest]; subst.
    destruct (is_property key) eqn:P.
    + rewrite dict_set_fresh by (apply Hfresh; now left).
      rewrite IH; [simpl; now rewrite <- app_assoc | exact Hrest |].
      intros k Hk Hin. rewrite map_app in Hin. apply in_app_or in Hin.
      destruct Hin as [Hin|[<-|[]]].
      * apply (Hfresh k); [now right | exact Hin].
      * exact (Hkey Hk).
    + apply IH; [exact Hrest|]. intros k Hk. apply Hfresh. now right.
Qed.

Lemma extract_annotations_visits (qpdata_obj : pyval) :
  extract_annotations qpdata_obj =
  Ok (map extract_annotation_info (visited_nodes qpdata_obj)).
Proof.
  destruct (search_annotations_visits qpdata_obj) as [r Hr].
  assert (T : fst ((try_except (search_annotations qpdata_obj) (fun _ => ret tt) ;; get) []) =
              Ok (map extract_annotation_info (visited_nodes qpdata_obj))).
  { unfold bind, try_except. rewrite Hr. now destruct r. }
  unfold extract_annotations.
  destruct qpdata_obj; simpl extract_annotations_body; first [exact T | reflexivity].
Qed.

(** X9: when the field names of a node are distinct, as the keys of a
    [__dict__] are, the attributes of its record are its recognised fields in
    their order, each with its [str] rendering cut to 200 characters. *)
Theorem attributes_are_recognised_fields_in_order (ann_obj : pyval) :
  NoDup (map fst (obj_dict ann_obj)) ->
  attributes (extract_annotation_info ann_obj) =
  map render (filter (fun item => is_property (fst item)) (obj_dict ann_obj)).
Proof.
  intros Hnd. unfold extract_annotation_info. simpl attributes.
  destruct ann_obj; try reflexivity. simpl has_dict. cbv iota.
  now rewrite fold_store_fresh.
Qed.

(** X10: when the [annotations] attribute of the root cannot be iterated,
    nothing is extracted: the exception ends the search before [map] is
    read, whatever [map] holds. *)
Theorem uniterable_annotations_yield_nothing (qpdata_obj anns : pyval) (e : exn) :
  getattr qpdata_obj "annotations" = Ok anns -> py_iter anns = Raise e ->
  extract_annotations qpdata_obj = Ok [].
Proof.
  intros Hget Hiter. rewrite extract_annotations_visits. unfold visited_nodes.
  now rewrite (getattr_hasattr _ _ _ Hget), Hget, Hiter.
Qed.

(** X11: when [annotations] is iterated and [map] then turns out not to be a
    dictionary, the records appended from [annotations] are still returned. *)
Theorem bad_map_keeps_annotation_records (qpdata_obj anns m : pyval)
    (items : list pyval) (e : exn) :
  getattr qpdata_obj "annotations" = Ok anns -> py_iter anns = Ok items ->
  getattr qpdata_obj "map" = Ok m -> py_items m = Raise e ->
  extract_annotations qpdata_obj = Ok (map extract_annotation_info items).
Proof.
  intros Hget Hiter Hmap Hitems. rewrite extract_annotations_visits.
  unfold visited_nodes, mapped_nodes.
  rewrite (getattr_hasattr _ _ _ Hget), Hget, Hiter.
  rewrite (getattr_hasattr _ _ _ Hmap), Hmap, Hitems. now rewrite app_nil_r.
Qed.

End ExtractionFacts.

(** ** The image loop: what an entry holds *)

Lemma stateless_lift {S A : Type} (r : res A) : stateless (S := S) (lift r).
Proof. intros s. now exists r. Qed.

Lemma stateless_ret {S A : Type} (a : A) : stateless (S := S) (ret a).
Proof. intros s. now exists (Ok a). Qed.

Lemma stateless_bind {S A B : Type} (m : M S A) (k : A -> M S B) :
  stateless m -> (forall a, stateless (k a)) -> stateless (bind m k).
Proof.
  intros Hm Hk s. unfold bind. destruct (Hm s) as [[a|e] E]; rewrite E.
  - apply Hk.
  - now exists (Raise e).
Qed.

(** After a statement that writes nothing, the rest runs on the same state,
    unless the statement raised. *)
Lemma bind_stateless {S A B : Type} (m : M S A) (k : A -> M S B) (s : S) :
  stateless m ->
  (exists e, bind m k s = (Raise e, s)) \/ (exists a, bind m k s = k a s).
Proof.
  intros Hm. unfold bind. destruct (Hm s) as [[a|e] E]; rewrite E.
  - right. now exists a.
  - left. now exists e.
Qed.

Lemma bind_lift {S A B : Type} (r : res A) (k : A -> M S B) (s : S) :
  bind (lift r) k s = match r with Ok a => k a s | Raise e => (Raise e, s) end.
Proof. unfold bind, lift. now destruct r. Qed.

Lemma bind_ret {S A B : Type} (a : A) (k : A -> M S B) (s : S) :
  bind (ret a) k s = k a s.
Proof. reflexivity. Qed.

Ltac stateless_tac :=
  repeat first
    [ apply stateless_lift
    | apply stateless_ret
    | (apply stateless_bind; [|intros ?])
    | match goal with |- stateless (if ?c then _ else _) => destruct c end ].

Lemma dict_has_set {V : Type} (d : dict V) (k k' : string) (v : V) :
  dict_has (dict_set d k v) k' = String.eqb k k' || dict_has d k'.
Proof.
  unfold dict_has. destruct (String.eqb_spec k k') as [->|N]; simpl.
  - now rewrite dict_get_set_same.
  - now rewrite dict_get_set_other.
Qed.

Section EntryFacts.
Context {rt : Runtime}.

Lemma show_summary_stateless (summary : pyval) : stateless (show_summary summary).
Proof. unfold show_summary. stateless_tac. Qed.

Lemma show_image_stateless (img_meta : pyval) : stateless (show_image img_meta).
Proof. unfold show_image. stateless_tac. Qed.

(** The two ways the body of the [try] ends: it raises having written
    nothing, or it writes [parsed_data] and [classes], after [metadata] for
    the first image or in verbose mode. *)
Lemma record_parse_shape (fs : filesystem) (classes : pyval) (verbose : bool)
    (idx : Z) (path : string) (s : dict pyval) :
  (exists e, record_parse fs classes verbose idx path s = (Raise e, s) /\
             (forall e', parse_qpdata fs path = Raise e' -> e = e')) \/
  (exists parsed_data s1,
     parse_qpdata fs path = Ok parsed_data /\
     (s1 = s \/
      (exists metadata, s1 = dict_set s "metadata" metadata /\
                        dict_get parsed_data "metadata" = Some metadata /\
                        truthy metadata = true /\
                        (idx = 1 \/ verbose = true))) /\
     record_parse fs classes verbose idx path s =
       (Ok tt, dict_set (dict_set s1 "parsed_data" (parsed_summary parsed_data))
                 "classes" classes)).
Proof.
  remember (record_parse fs classes verbose idx path s) as out eqn:R.
  unfold record_parse in R. rewrite bind_lift in R.
  destruct (parse_qpdata fs path) as [parsed_data|e].
  2:{ left. exists e. split; [exact R|]. now intros e' [= <-]. }
  destruct (((idx =? 1) || verbose) && truthy (dict_get_or_none parsed_data "metadata"))
    eqn:C.
  2:{ right. exists parsed_data, s. split; [reflexivity|]. split; [now left | exact R]. }
  apply andb_true_iff in C. destruct C as [C1 C2].
  assert (Hfirst : idx = 1 \/ verbose = true).
  { apply orb_true_iff in C1. destruct C1 as [C1|C1]; [left; now apply Z.eqb_eq | now right]. }
  unfold dict_index in R. unfold dict_get_or_none in C2.
  destruct (dict_get parsed_data "metadata") as [metadata|] eqn:G; [|discriminate C2].
  unfold bind at 1 in R. rewrite bind_lift in R.
  match type of R with
  | context [bind ?m ?k s] =>
      destruct (bind_stateless m k s) as [[e E]|[a E]];
        [destruct verbose; stateless_tac | |]; rewrite E in R; clear E
  end.
  { left. exists e. split; [exact R | discriminate]. }
  rewrite bind_lift in R.
  destruct (py_in "server" metadata) as [has_server|e].
  2:{ left. exists e. split; [exact R | discriminate]. }
  match type of R with
  | context [bind ?m ?k s] =>
      destruct (bind_stateless m k s) as [[e E]|[u E]];
        [destruct has_server; stateless_tac; apply show_image_stateless | |];
        rewrite E in R; clear E
  end.
  { left. exists e. split; [exact R | discriminate]. }
  right. exists parsed_data, (dict_set s "metadata" metadata).
  split; [reflexivity|]. split; [|exact R].
  right. exists metadata. auto.
Qed.

End EntryFacts.

Lemma set_info_run (k : string) (v : pyval) (s : dict pyval) :
  set_info k v s = (Ok tt, dict_set s k v).
Proof. reflexivity. Qed.

Lemma bind_inv {S A B : Type} (m : M S A) (k : A -> M S B) (s s2 : S) (y : B) :
  bind m k s = (Ok y, s2) ->
  exists a s1, m s = (Ok a, s1) /\ k a s1 = (Ok y, s2).
Proof.
  unfold bind. destruct (m s) as [[a|e] s1]; [|discriminate].
  intros H. now exists a, s1.
Qed.

Lemma lift_inv {S A : Type} (r : res A) (s s1 : S) (a : A) :
  lift r s = (Ok a, s1) -> r = Ok a /\ s1 = s.
Proof. unfold lift. now intros [= -> ->]. Qed.

Section EntryShape.
Context {rt : Runtime}.

Lemma image_entry_shape (fs : filesystem) (data_path : string) (classes : pyval)
    (verbose : bool) (idx : Z) (image : pyval) (entry : dict pyval) :
  image_entry fs data_path classes verbose idx image [] = (Ok tt, entry) ->
  entry_shape fs data_path classes verbose idx image entry.
Proof.
  intros H. unfold image_entry in H.
  apply bind_inv in H as (has_builder & s0 & B & H).
  apply lift_inv in B as [_ ->].
  apply bind_inv in H as ([] & s_a & Ba & H).
  assert (U : exists uri, s_a = optional_entry "uri" uri).
  { destruct has_builder.
    - apply bind_inv in Ba as (sb & s1 & B1 & Ba). apply lift_inv in B1 as [_ ->].
      apply bind_inv in Ba as (uri & s1 & B2 & Ba). apply lift_inv in B2 as [_ ->].
      rewrite set_info_run in Ba. injection Ba as <-. now exists (Some uri).
    - injection Ba as <-. now exists None. }
  destruct U as [uri ->]. clear Ba. exists uri.
  apply bind_inv in H as (has_id & s1 & B & H). apply lift_inv in B as [Hid ->].
  destruct has_id.
  2:{ left. split; [exact Hid|]. now injection H as <-. }
  right.
  apply bind_inv in H as (entryID & s1 & B & H). apply lift_inv in B as [Hget ->].
  exists entryID. split; [exact Hid|]. split; [exact Hget|].
  apply bind_inv in H as ([] & s_b & B & H). rewrite set_info_run in B.
  injection B as <-. cbv zeta in H.
  destruct (path_exists fs (path_join data_path (py_str entryID))) eqn:D.
  2:{ left. split; [reflexivity|]. injection H as <-. now destruct uri. }
  right. split; [reflexivity|].
  apply bind_inv in H as ([] & s_c & Bs & H).
  assert (S : exists summary,
            s_c = (dict_set (optional_entry "uri" uri) "entryID" entryID ++
                   optional_entry "summary" summary)%list).
  { revert Bs.
    destruct (path_exists fs (path_join (path_join data_path (py_str entryID))
                                "summary.json")); intros Bs.
    - apply bind_inv in Bs as (content & s1 & B1 & Bs). apply lift_inv in B1 as [_ ->].
      apply bind_inv in Bs as (summary & s1 & B2 & Bs). apply lift_inv in B2 as [_ ->].
      apply bind_inv in Bs as ([] & s1 & B3 & Bs). rewrite set_info_run in B3.
      injection B3 as <-. exists (Some summary).
      assert (Hs : s_c = dict_set (dict_set (optional_entry "uri" uri) "entryID" entryID)
                           "summary" summary).
      { destruct verbose.
        - destruct (show_summary_stateless summary
                      (dict_set (dict_set (optional_entry "uri" uri) "entryID" entryID)
                         "summary" summary)) as [r E].
          rewrite E in Bs. now injection Bs as _ <-.
        - now injection Bs as <-. }
      rewrite Hs. now destruct uri.
    - injection Bs as <-. exists None. simpl. now rewrite app_nil_r. }
  destruct S as [summary ->]. clear Bs. exists summary. cbv zeta.
  apply bind_inv in H as ([] & s_d & B & H). rewrite set_info_run in B.
  injection B as <-.
  set (qp := path_join (path_join data_path (py_str entryID)) "data.qpdata") in *.
  assert (Hd : dict_set (dict_set (optional_entry "uri" uri) "entryID" entryID ++
                         optional_entry "summary" summary)%list "data_path" (PStr qp) =
               entry_head uri entryID summary qp)
    by (unfold entry_head; now destruct uri, summary).
  rewrite Hd in H. unfold try_except in H.
  destruct (record_parse_shape fs classes verbose idx qp (entry_head uri entryID summary qp))
    as [(e & E & He)|(parsed_data & s1 & P & Hs1 & E)]; rewrite E in H.
  - left. exists e. split; [exact He|].
    rewrite set_info_run in H. injection H as <-.
    unfold entry_head. now destruct uri, summary.
  - right. injection H as <-.
    destruct Hs1 as [->|(m & -> & Hm)].
    + exists parsed_data, None. split; [exact P|]. split; [discriminate|].
      unfold entry_head. now destruct uri, summary.
    + exists parsed_data, (Some m). split; [exact P|]. split.
      * now intros m' [= <-].
      * unfold entry_head. now destruct uri, summary.
Qed.

End EntryShape.

Section EntryTheorems.
Context {rt : Runtime}.

Ltac entry_cases H :=
  destruct (image_entry_shape _ _ _ _ _ _ _ H)
    as [uri [[Hid ->] | (entryID & Hid & Hget &
         [[D ->] | (D & summary &
            [(e0 & He & ->) | (parsed_data & metadata & P & Hm & ->)])])]];
  unfold entry_head.

(** X12: an entry with a [data_path] has either an [error] or a
    [parsed_data], never both and never neither, and it has [classes] exactly
    when it has [parsed_data]; an entry without [data_path] has none of
    them. *)
Theorem entry_has_error_or_parsed_data (fs : filesystem) (data_path : string)
    (classes : pyval) (verbose : bool) (idx : Z) (image : pyval) (entry : dict pyval) :
  image_entry fs data_path classes verbose idx image [] = (Ok tt, entry) ->
  (dict_has entry "data_path" = true ->
   xorb (dict_has entry "error") (dict_has entry "parsed_data") = true /\
   dict_has entry "classes" = dict_has entry "parsed_data") /\
  (dict_has entry "data_path" = false ->
   dict_has entry "error" = false /\ dict_has entry "parsed_data" = false /\
   dict_has entry "classes" = false /\ dict_has entry "metadata" = false).
Proof.
  intros H. entry_cases H.
  - destruct uri; split; intros Hd; try discriminate Hd; repeat split.
  - destruct uri; split; intros Hd; try discriminate Hd; repeat split.
  - destruct uri, summary; split; intros Hd; try discriminate Hd; repeat split.
  - destruct uri, summary, metadata; split; intros Hd; try discriminate Hd; repeat split.
Qed.

(** X13: when [parse_qpdata] raises on the file an entry names in
    [data_path], the entry records the message of that exception as its
    [error] and has neither [parsed_data] nor [metadata]. *)
Theorem parse_exception_is_recorded (fs : filesystem) (data_path : string)
    (classes : pyval) (verbose : bool) (idx : Z) (image : pyval) (entry : dict pyval)
    (qpdata_path : string) (e : exn) :
  image_entry fs data_path classes verbose idx image [] = (Ok tt, entry) ->
  dict_get entry "data_path" = Some (PStr qpdata_path) ->
  parse_qpdata fs qpdata_path = Raise e ->
  dict_get entry "error" = Some (PStr (str_exn e)) /\
  dict_get entry "parsed_data" = None /\
  dict_get entry "metadata" = None.
Proof.
  intros H Hd Hraise. entry_cases H.
  - destruct uri; discriminate Hd.
  - destruct uri; discriminate Hd.
  - assert (Q : path_join (path_join data_path (py_str entryID)) "data.qpdata" = qpdata_path)
      by (destruct uri, summary; now injection Hd).
    rewrite Q in *. rewrite (He e Hraise).
    destruct uri, summary; repeat split.
  - assert (Q : path_join (path_join data_path (py_str entryID)) "data.qpdata" = qpdata_path)
      by (destruct uri, summary, metadata; now injection Hd).
    rewrite Q in P. congruence.
Qed.

(** X14: an entry has a [metadata] only for the first image or in verbose
    mode, and then it is the non-empty metadata of the result parsed from the
    file the entry names. *)
Theorem metadata_only_for_first_image (fs : filesystem) (data_path : string)
    (classes : pyval) (verbose : bool) (idx : Z) (image : pyval) (entry : dict pyval)
    (m : pyval) :
  image_entry fs data_path classes verbose idx image [] = (Ok tt, entry) ->
  dict_get entry "metadata" = Some m ->
  (idx = 1 \/ verbose = true) /\ truthy m = true /\
  exists qpdata_path parsed_data,
    dict_get entry "data_path" = Some (PStr qpdata_path) /\
    parse_qpdata fs qpdata_path = Ok parsed_data /\
    dict_get parsed_data "metadata" = Some m.
Proof.
  intros H Hmeta. entry_cases H.
  - destruct uri; discriminate Hmeta.
  - destruct uri; discriminate Hmeta.
  - destruct uri, summary; discriminate Hmeta.
  - destruct metadata as [m'|]; [|destruct uri, summary; discriminate Hmeta].
    assert (E : m' = m) by (destruct uri, summary; now injection Hmeta).
    subst m'. destruct (Hm m eq_refl) as (G & T & F).
    split; [exact F|]. split; [exact T|].
    exists (path_join (path_join data_path (py_str entryID)) "data.qpdata"), parsed_data.
    split; [|split; assumption]. now destruct uri, summary.
Qed.

(** X15: when the [summary.json] of an image exists and does not load, the
    loop ends with an exception and appends nothing more: the exception is
    the one of [json.load], unless reading the [uri] of the image's
    [serverBuilder] raised before, and then it is that one.  Unlike a failure
    on [data.qpdata], it is not recorded and the images after it are not
    visited. *)
Theorem unreadable_summary_stops_the_loop (fs : filesystem) (data_path : string)
    (classes : pyval) (verbose : bool) (idx : Z) (image entryID : pyval)
    (rest : list pyval) (image_infos : list (dict pyval)) (content : bytes) (e : exn) :
  py_getitem image "entryID" = Ok entryID ->
  path_exists fs (path_join data_path (py_str entryID)) = true ->
  fs (path_join (path_join data_path (py_str entryID)) "summary.json") =
    Some (File content) ->
  json_load content = Raise e ->
  get_qupath_info_loop fs data_path classes verbose idx (image :: rest) image_infos =
    (Raise e, image_infos) \/
  exists server_builder e',
    py_getitem image "serverBuilder" = Ok server_builder /\
    py_get_or server_builder "uri" (PStr "Unknown") = Raise e' /\
    get_qupath_info_loop fs data_path classes verbose idx (image :: rest) image_infos =
      (Raise e', image_infos).
Proof.
  intros Hget Hdir Hsum Hload.
  assert (T : forall s,
             fst ((has_id <- lift (py_in "entryID" image) ;;
                   if has_id then
                     entryID <- lift (py_getitem image "entryID") ;;
                     set_info "entryID" entryID ;;
                     let image_data_path := path_join data_path (py_str entryID) in
                     if path_exists fs image_data_path then
                       let summary_path := path_join image_data_path "summary.json" in
                       (if path_exists fs summary_path then
                          content <- lift (read_file fs summary_path) ;;
                          summary <- lift (json_load content) ;;
                          set_info "summary" summary ;;
                          if verbose then show_summary summary else ret tt
                        else ret tt) ;;
                       let image_data_path_qpdata :=
                         path_join image_data_path "data.qpdata" in
                       set_info "data_path" (PStr image_data_path_qpdata) ;;
                       try_except
                         (record_parse fs classes verbose idx image_data_path_qpdata)
                         (fun e => set_info "error" (PStr (str_exn e)))
                     else ret tt
                   else ret tt) s) = Raise e).
  { intros s. destruct image; try discriminate Hget.
    simpl in Hget. simpl py_in. simpl py_getitem.
    destruct (items_get items "entryID") as [x|]; [|discriminate Hget].
    injection Hget as ->.
    rewrite bind_lift, bind_lift. unfold bind at 1. rewrite set_info_run.
    cbv beta iota zeta. rewrite Hdir.
    unfold bind at 1. unfold path_exists, read_file. rewrite Hsum.
    rewrite bind_lift, bind_lift, Hload. reflexivity. }
  assert (E : fst (image_entry fs data_path classes verbose idx image []) = Raise e \/
              exists server_builder e',
                py_getitem image "serverBuilder" = Ok server_builder /\
                py_get_or server_builder "uri" (PStr "Unknown") = Raise e' /\
                fst (image_entry fs data_path classes verbose idx image []) = Raise e').
  { destruct image; try discriminate Hget.
    remember (image_entry fs data_path classes verbose idx (PDict items) []) as out eqn:R.
    unfold image_entry in R. rewrite bind_lift in R.
    simpl (py_in "serverBuilder" (PDict items)) in R.
    simpl (py_getitem (PDict items) "serverBuilder") in R |- *.
    destruct (items_get items "serverBuilder") as [server_builder|]; cbv beta iota in R.
    - unfold bind at 1 in R. rewrite bind_lift, bind_lift in R.
      destruct (py_get_or server_builder "uri" (PStr "Unknown")) as [uri|e'] eqn:U.
      + left. rewrite set_info_run in R. subst out. exact (T _).
      + right. exists server_builder, e'. subst out. repeat split. exact U.
    - left. rewrite bind_ret in R. subst out. exact (T _). }
  simpl get_qupath_info_loop. unfold bind at 1.
  destruct (image_entry fs data_path classes verbose idx image []) as [[[]|e1] st];
    simpl in E.
  - destruct E as [E|(sb & e' & _ & _ & E)]; discriminate E.
  - destruct E as [E|(sb & e' & G & U & E)]; injection E as ->.
    + now left.
    + right. now exists sb, e'.
Qed.

End EntryTheorems.

(** ** Decode failures in the batch *)

Lemma dict_set_twice {V : Type} (d : dict V) (k : string) (v w : V) :
  dict_set (dict_set d k v) k w = dict_set d k w.
Proof.
  induction d as [|[k0 v0] d IH]; simpl.
  - now rewrite String.eqb_refl.
  - destruct (String.eqb k0 k) eqn:E; simpl.
    + now rewrite String.eqb_refl.
    + now rewrite E, IH.
Qed.

(** Writing [k] again hides what was first written there. *)
Lemma dict_set_masked {V : Type} (d : dict V) (k k2 : string) (v v' c w : V) :
  k <> k2 ->
  dict_set (dict_set (dict_set d k v) k2 c) k w =
  dict_set (dict_set (dict_set d k v') k2 c) k w.
Proof.
  intros Hne. pose proof (proj2 (String.eqb_neq k k2) Hne) as N.
  assert (N' : String.eqb k2 k = false) by (rewrite String.eqb_sym; exact N).
  induction d as [|[k0 v0] d IH]; simpl.
  - rewrite N. simpl. now rewrite String.eqb_refl.
  - destruct (String.eqb k0 k) eqn:E; simpl.
    + rewrite N. simpl. now rewrite String.eqb_refl.
    + destruct (String.eqb k0 k2) eqn:E2; simpl.
      * rewrite N'. now rewrite !dict_set_twice.
      * now rewrite E, IH.
Qed.

Lemma error_without_flag (entry : dict pyval) :
  dict_get (without_hierarchy_flag entry) "error" = dict_get entry "error".
Proof.
  unfold without_hierarchy_flag.
  destruct (dict_get entry "parsed_data") as [[]|]; try reflexivity.
  apply dict_get_set_other. discriminate.
Qed.

Section DecodeFailures.
Context {rt : Runtime}.

(** A decoder that raises where it is called leaves a result without
    hierarchy. *)
Lemma failed_decode_result (fs : filesystem) (file_path : string) (data : bytes)
    (pos : Z) (err : exn) :
  fs file_path = Some (File data) ->
  In pos (loads (snd (parse_run fs file_path))) ->
  javaobj_load data pos = Raise err ->
  exists r, parse_qpdata fs file_path = Ok r /\ dict_get r "hierarchy" = Some PNone.
Proof.
  intros Hfile Hin Herr. unfold parse_qpdata.
  rewrite (parse_run_file _ _ _ Hfile) in *.
  destruct (parse_body_cases data)
    as [E|[E|(s & e & Hs & He & Fs & Fe & [[F E]|(err' & F & E)])]];
    rewrite E in *; simpl in Hin; try contradiction.
  destruct Hin as [<-|[]].
  eexists. split; [reflexivity|]. unfold full_result. now rewrite Herr.
Qed.

Variable load : bytes -> Z -> res pyval.

(** With another decoder the parse ends in the same way, with the same
    [metadata] and [version]. *)
Lemma parse_body_decoder (data : bytes) :
  fst (parse_body data start_frame) =
    fst (parse_body (rt := with_decoder rt load) data start_frame) /\
  dict_get (result (snd (parse_body data start_frame))) "metadata" =
    dict_get (result (snd (parse_body (rt := with_decoder rt load) data start_frame)))
      "metadata" /\
  dict_get (result (snd (parse_body data start_frame))) "version" =
    dict_get (result (snd (parse_body (rt := with_decoder rt load) data start_frame)))
      "version".
Proof.
  destruct (Z_le_gt_dec (find data json_pattern 0) 0) as [L|G].
  - rewrite !parse_body_no_json by exact L. repeat split.
  - destruct (Z_le_gt_dec (find data stream_marker (find data json_pattern 0)) 0)
      as [L'|G'].
    + rewrite !parse_body_no_marker by lia. repeat split.
    + set (s := find data json_pattern 0) in *.
      set (e := find data stream_marker s) in *.
      destruct (json_fault (rt := rt) data s e) as [err|] eqn:F.
      * rewrite (parse_body_fault (rt := rt) data s e err) by (reflexivity || lia || exact F).
        rewrite (parse_body_fault (rt := with_decoder rt load) data s e err)
          by (reflexivity || lia || exact F).
        repeat split.
      * rewrite (parse_body_json (rt := rt) data s e) by (reflexivity || lia || exact F).
        rewrite (parse_body_json (rt := with_decoder rt load) data s e)
          by (reflexivity || lia || exact F).
        repeat split.
Qed.

Lemma parse_qpdata_decoder (fs : filesystem) (file_path : string) :
  match parse_qpdata fs file_path,
        parse_qpdata (rt := with_decoder rt load) fs file_path with
  | Ok r, Ok r' =>
      dict_get r "metadata" = dict_get r' "metadata" /\
      dict_get r "version" = dict_get r' "version"
  | Raise e, Raise e' => e = e'
  | _, _ => False
  end.
Proof.
  unfold parse_qpdata, parse_run.
  destruct (negb (path_exists fs file_path)); [reflexivity|].
  destruct (read_file fs file_path) as [data|e]; [|reflexivity].
  destruct (parse_body_decoder data) as (H1 & H2 & H3).
  destruct (parse_body data start_frame) as [[[]|e] f],
    (parse_body (rt := with_decoder rt load) data start_frame) as [[[]|e'] f'];
    simpl in *; try discriminate H1; [now split | now injection H1].
Qed.

Lemma same_but_flag_refl (x : res unit * dict pyval) : same_but_flag x x.
Proof. split; reflexivity. Qed.

Lemma bind_same {A : Type} (m : M (dict pyval) A) (k1 k2 : A -> M (dict pyval) unit)
    (s : dict pyval) :
  (forall a s', same_but_flag (k1 a s') (k2 a s')) ->
  same_but_flag (bind m k1 s) (bind m k2 s).
Proof.
  intros H. unfold bind. destruct (m s) as [[a|e] s']; [apply H | apply same_but_flag_refl].
Qed.

Lemma try_lift {A : Type} (r : res A) (k : A -> M (dict pyval) unit)
    (h : exn -> M (dict pyval) unit) (s : dict pyval) :
  try_except (bind (lift r) k) h s =
  match r with
  | Ok a => try_except (k a) h s
  | Raise e => h e s
  end.
Proof. unfold try_except, bind, lift. now destruct r. Qed.

Lemma try_bind_same (m : M (dict pyval) unit) (k1 k2 : unit -> M (dict pyval) unit)
    (h : exn -> M (dict pyval) unit) (s : dict pyval) :
  (forall a s1, fst (k1 a s1) = Ok tt /\ fst (k2 a s1) = Ok tt /\
                without_hierarchy_flag (snd (k1 a s1)) =
                without_hierarchy_flag (snd (k2 a s1))) ->
  same_but_flag (try_except (bind m k1) h s) (try_except (bind m k2) h s).
Proof.
  intros H. unfold try_except, bind.
  destruct (m s) as [[a|e] s1]; [|apply same_but_flag_refl].
  destruct (H a s1) as (H1 & H2 & H3).
  destruct (k1 a s1) as [[[]|e1] st1], (k2 a s1) as [[[]|e2] st2];
    simpl in *; try discriminate.
  split; [reflexivity | exact H3].
Qed.

Lemma record_parse_same (fs : filesystem) (classes : pyval) (verbose : bool)
    (idx : Z) (path : string) (s : dict pyval) :
  same_but_flag
    (try_except (record_parse fs classes verbose idx path)
       (fun e => set_info "error" (PStr (str_exn e))) s)
    (try_except (record_parse (rt := with_decoder rt load) fs classes verbose idx path)
       (fun e => set_info "error" (PStr (str_exn e))) s).
Proof.
  unfold record_parse. rewrite !try_lift.
  pose proof (parse_qpdata_decoder fs path) as H.
  destruct (parse_qpdata fs path) as [r|e],
    (parse_qpdata (rt := with_decoder rt load) fs path) as [r'|e']; try contradiction.
  2:{ subst e'. apply same_but_flag_refl. }
  destruct H as [Hm Hv].
  unfold dict_get_or_none, dict_index. rewrite Hm, Hv.
  apply try_bind_same. intros [] s1.
  split; [reflexivity|]. split; [reflexivity|].
  unfold bind. rewrite !set_info_run. simpl snd. unfold without_hierarchy_flag.
  rewrite !(dict_get_set_other _ "classes" "parsed_data") by discriminate.
  rewrite !dict_get_set_same. simpl.
  apply dict_set_masked. discriminate.
Qed.

Lemma image_entry_same (fs : filesystem) (data_path : string) (classes : pyval)
    (verbose : bool) (idx : Z) (image : pyval) (s : dict pyval) :
  same_but_flag
    (image_entry fs data_path classes verbose idx image s)
    (image_entry (rt := with_decoder rt load) fs data_path classes verbose idx image s).
Proof.
  unfold image_entry.
  apply bind_same. intros has_builder s1.
  apply bind_same. intros _ s2.
  apply bind_same. intros has_id s3.
  destruct has_id; [|apply same_but_flag_refl].
  apply bind_same. intros entryID s4.
  apply bind_same. intros _ s5.
  change (@py_str (with_decoder rt load)) with (@py_str rt). cbv zeta.
  destruct (path_exists fs (path_join data_path (py_str entryID)));
    [|apply same_but_flag_refl].
  apply bind_same. intros _ s6.
  apply bind_same. intros _ s7.
  apply record_parse_same.
Qed.

Lemma loop_same (fs : filesystem) (data_path : string) (classes : pyval)
    (verbose : bool) (images : list pyval) :
  forall (idx : Z) (infos infos' : list (dict pyval)),
    map without_hierarchy_flag infos = map without_hierarchy_flag infos' ->
    fst (get_qupath_info_loop fs data_path classes verbose idx images infos) =
      fst (get_qupath_info_loop (rt := with_decoder rt load) fs data_path classes
             verbose idx images infos') /\
    map without_hierarchy_flag
      (snd (get_qupath_info_loop fs data_path classes verbose idx images infos)) =
    map without_hierarchy_flag
      (snd (get_qupath_info_loop (rt := with_decoder rt load) fs data_path classes
              verbose idx images infos')).
Proof.
  induction images as [|image rest IH]; intros idx infos infos' H; simpl.
  - split; [reflexivity | exact H].
  - unfold bind at 1 3.
    destruct (image_entry_same fs data_path classes verbose idx image []) as [H1 H2].
    destruct (image_entry fs data_path classes verbose idx image []) as [[[]|e] entry],
      (image_entry (rt := with_decoder rt load) fs data_path classes verbose idx image [])
        as [[[]|e'] entry'];
      simpl in H1, H2; try discriminate H1.
    + apply IH. rewrite !map_app. simpl. now rewrite H, H2.
    + injection H1 as ->. split; [reflexivity | exact H].
Qed.

(** C4 (amended): a failure of the object-stream decode is dropped inside
    [parse_qpdata] and is not surfaced: the call returns a result whose
    [hierarchy] is [None], and an entry built from that file which has a
    [parsed_data] record has [has_hierarchy] false in it and no [error].
    Nothing else of the batch depends on the decoder: with any other decoder
    [load] in its place the loop ends in the same way with the same entries,
    their [error] strings included, up to the [has_hierarchy] flags.  So no
    error string is recorded on account of a decode failure, the batch is the
    one of a run in which the decoder returned [None] wherever it raised, and
    once the entry of an image is built the loop goes on with the next
    image. *)
Theorem C4_decode_failure_leaves_no_trace (fs : filesystem) (data_path : string)
    (classes : pyval) (verbose : bool) (idx : Z) (images : list pyval)
    (image_infos : list (dict pyval)) :
  let batch := get_qupath_info_loop fs data_path classes verbose idx images image_infos in
  let other := get_qupath_info_loop (rt := with_decoder rt load) fs data_path classes
                 verbose idx images image_infos in
  (forall file_path data pos err,
     fs file_path = Some (File data) ->
     In pos (loads (snd (parse_run fs file_path))) ->
     javaobj_load data pos = Raise err ->
     exists r, parse_qpdata fs file_path = Ok r /\
               dict_get r "hierarchy" = Some PNone) /\
  (forall image entry qpdata_path data pos err parsed,
     image_entry fs data_path classes verbose idx image [] = (Ok tt, entry) ->
     dict_get entry "data_path" = Some (PStr qpdata_path) ->
     fs qpdata_path = Some (File data) ->
     In pos (loads (snd (parse_run fs qpdata_path))) ->
     javaobj_load data pos = Raise err ->
     dict_get entry "parsed_data" = Some parsed ->
     py_getitem parsed "has_hierarchy" = Ok (PBool false) /\
     dict_get entry "error" = None) /\
  (fst batch = fst other /\
   map without_hierarchy_flag (snd batch) = map without_hierarchy_flag (snd other) /\
   map (fun entry => dict_get entry "error") (snd batch) =
     map (fun entry => dict_get entry "error") (snd other)) /\
  (forall file_path,
     parse_qpdata fs file_path = parse_qpdata (rt := silenced rt) fs file_path) /\
  batch = get_qupath_info_loop (rt := silenced rt) fs data_path classes verbose idx
            images image_infos /\
  (forall image rest image_info,
     images = image :: rest ->
     image_entry fs data_path classes verbose idx image [] = (Ok tt, image_info) ->
     batch = get_qupath_info_loop fs data_path classes verbose (idx + 1) rest
               (image_infos ++ [image_info])%list).
Proof.
  intros batch other. subst batch other.
  split; [|split; [|split; [|split; [|split]]]].
  - intros file_path data pos err. apply failed_decode_result.
  - intros image entry qpdata_path data pos err parsed H Hd Hfile Hin Herr Hp.
    destruct (failed_decode_result _ _ _ _ _ Hfile Hin Herr) as (r & Hr & Hh).
    destruct (image_entry_shape _ _ _ _ _ _ _ H)
      as [uri [[Hid ->] | (entryID & Hid & Hget &
           [[D ->] | (D & summary &
              [(e0 & He0 & ->) | (parsed_data & metadata & P & Hm & ->)])])]];
      unfold entry_head in *.
    + destruct uri; discriminate Hp.
    + destruct uri; discriminate Hp.
    + destruct uri, summary; discriminate Hp.
    + assert (Q : path_join (path_join data_path (py_str entryID)) "data.qpdata" =
                  qpdata_path)
        by (destruct uri, summary, metadata; now injection Hd).
      rewrite Q, Hr in P. injection P as <-.
      assert (Hp' : parsed = parsed_summary r)
        by (destruct uri, summary, metadata; now injection Hp).
      subst parsed. unfold parsed_summary, dict_get_or_none. rewrite Hh.
      split; [reflexivity|]. destruct uri, summary, metadata; reflexivity.
  - destruct (loop_same fs data_path classes verbose images idx image_infos image_infos
                eq_refl) as [H1 H2].
    split; [exact H1|]. split; [exact H2|].
    rewrite <- (map_ext _ _ error_without_flag).
    rewrite <- (map_ext _ _ error_without_flag
                  (snd (get_qupath_info_loop (rt := with_decoder rt load) fs data_path
                          classes verbose idx images image_infos))).
    rewrite <- !(map_map without_hierarchy_flag (fun entry => dict_get entry "error")).
    now rewrite H2.
  - intros file_path. symmetry. apply parse_qpdata_silenced.
  - symmetry. apply loop_silenced.
  - intros image rest image_info -> H. simpl. unfold bind. now rewrite H.
Qed.

End DecodeFailures.

(** ** The whole of [get_qupath_info] *)

Section LoopFacts.
Context {rt : Runtime}.

Lemma loop_completes (fs : filesystem) (data_path : string) (classes : pyval)
    (verbose : bool) (images : list pyval) :
  forall idx image_infos image_infos',
    get_qupath_info_loop fs data_path classes verbose idx images image_infos =
      (Ok tt, image_infos') ->
    exists new, image_infos' = (image_infos ++ new)%list /\
                entries_of fs data_path classes verbose idx images new.
Proof.
  induction images as [|image rest IH]; intros idx infos infos' H; simpl in H.
  - injection H as <-. exists []. split; [now rewrite app_nil_r | exact I].
  - apply bind_inv in H as ([] & s1 & B & H).
    destruct (image_entry fs data_path classes verbose idx image []) as [[[]|e] entry] eqn:E;
      [|discriminate].
    injection B as <-.
    destruct (IH _ _ _ H) as (more & -> & Hmore).
    exists (entry :: more). split; [now rewrite <- app_assoc | now split].
Qed.

Lemma entries_of_forall2 (fs : filesystem) (data_path : string) (classes : pyval)
    (verbose : bool) (images : list pyval) :
  forall idx new,
    entries_of fs data_path classes verbose idx images new ->
    Forall2 (fun image entry =>
               exists idx', image_entry fs data_path classes verbose idx' image [] =
                            (Ok tt, entry)) images new.
Proof.
  induction images as [|image rest IH]; intros idx [|entry more] H; simpl in H;
    try contradiction; constructor.
  - exists idx. apply H.
  - apply (IH (idx + 1)). apply H.
Qed.

End LoopFacts.

Section ProjectFacts.
Context {rt : Runtime}.
Variable dict_setitem :
  list (pyval * pyval) -> pyval -> pyval -> res (list (pyval * pyval)).

(** What a returned list of entries was computed from. *)
Lemma get_qupath_info_returns (fs : filesystem) (path : string) (verbose : bool)
    (image_infos : list (dict pyval)) :
  get_qupath_info dict_setitem fs path verbose = Ok image_infos ->
  exists legend content data listed images,
    load_classes dict_setitem fs
      (path_join (path_join path "classifiers") "classes.json") [] = (Ok tt, legend) /\
    read_file fs (path_join path "project.qpproj") = Ok content /\
    json_load content = Ok data /\
    py_get_or data "images" (PList []) = Ok listed /\
    py_iter listed = Ok images /\
    entries_of fs (path_join path "data") (PDict legend) verbose 1 images image_infos.
Proof.
  unfold get_qupath_info. cbv zeta.
  destruct (load_classes dict_setitem fs _ []) as [[[]|e] legend] eqn:Hc; [|discriminate].
  destruct (read_file fs _) as [content|] eqn:Hr; [|discriminate].
  destruct (json_load content) as [data|] eqn:Hl; [|discriminate].
  destruct (py_get_or data "images" (PList [])) as [listed|] eqn:Hg; [|discriminate].
  destruct (py_len listed); [|discriminate].
  destruct (py_iter listed) as [images|] eqn:Hi; [|discriminate].
  destruct (get_qupath_info_loop fs _ _ verbose 1 images []) as [[[]|e] infos] eqn:L;
    [|discriminate].
  intros [= <-]. destruct (loop_completes _ _ _ _ _ _ _ _ L) as (new & -> & Hnew).
  exists legend, content, data, listed, images. auto 10.
Qed.

(** X16: the list that [get_qupath_info] returns has one entry for each image
    listed in the manifest, in the order of the manifest: the entry of an
    image with an [entryID] carries that [entryID], the entry of an image
    without one carries none. *)
Theorem one_entry_per_image (fs : filesystem) (path : string) (verbose : bool)
    (image_infos : list (dict pyval)) :
  get_qupath_info dict_setitem fs path verbose = Ok image_infos ->
  exists content data listed images,
    read_file fs (path_join path "project.qpproj") = Ok content /\
    json_load content = Ok data /\
    py_get_or data "images" (PList []) = Ok listed /\
    py_iter listed = Ok images /\
    List.length image_infos = List.length images /\
    Forall2 (fun image entry =>
               (py_in "entryID" image = Ok false /\ dict_get entry "entryID" = None) \/
               (exists entryID, py_getitem image "entryID" = Ok entryID /\
                                dict_get entry "entryID" = Some entryID))
            images image_infos.
Proof.
  intros H.
  destruct (get_qupath_info_returns _ _ _ _ H)
    as (legend & content & data & listed & images & _ & Hr & Hl & Hg & Hi & He).
  exists content, data, listed, images. repeat (split; [assumption|]).
  apply entries_of_forall2 in He.
  split; [symmetry; exact (Forall2_length He)|].
  eapply Forall2_impl; [|exact He]. intros image entry [idx' E]. simpl.
  destruct (image_entry_shape _ _ _ _ _ _ _ E)
    as [uri [[Hid ->] | (entryID & Hid & Hget &
         [[D ->] | (D & summary &
            [(e0 & He0 & ->) | (parsed_data & metadata & P & Hm & ->)])])]];
    unfold entry_head.
  - left. split; [exact Hid | now destruct uri].
  - right. exists entryID. split; [exact Hget | now destruct uri].
  - right. exists entryID. split; [exact Hget | now destruct uri].
  - right. exists entryID. split; [exact Hget | now destruct uri].
Qed.


(** X18: a manifest that is a dictionary without an [images] key gives the
    empty list, not an error. *)
Theorem manifest_without_images (fs : filesystem) (path : string) (verbose : bool)
    (legend items : list (pyval * pyval)) (content : bytes) :
  load_classes dict_setitem fs
    (path_join (path_join path "classifiers") "classes.json") [] = (Ok tt, legend) ->
  read_file fs (path_join path "project.qpproj") = Ok content ->
  json_load content = Ok (PDict items) ->
  items_get items "images" = None ->
  get_qupath_info dict_setitem fs path verbose = Ok [].
Proof.
  intros Hc Hr Hl Hi. unfold get_qupath_info. cbv zeta.
  rewrite Hc, Hr, Hl. simpl. now rewrite Hi.
Qed.

End ProjectFacts.

(** ** The further properties on sample projects *)

(** The reference decoder raises unless the stream starts with [0xAC]. *)
Lemma reference_decoder_checks_magic (data : bytes) (pos : Z) :
  nth_error data (Z.to_nat pos) <> Some xac ->
  exists err, javaobj_load (Runtime := reference_runtime) data pos = Raise err.
Proof.
  intros H. simpl. unfold decode_stream, read_n.
  rewrite <- (Nat.add_0_r (Z.to_nat pos)), <- nth_error_skipn in H.
  destruct (skipn (Z.to_nat pos) data) as [|x [|y rest]]; simpl.
  - eexists. reflexivity.
  - eexists. reflexivity.
  - destruct (Byte.eqb xac x) eqn:E.
    + apply Byte.byte_dec_bl in E. subst x. now exfalso.
    + simpl. eexists. reflexivity.
Qed.

(** X3 on [full_container]: the first [t] from offset 19 on is at 21. *)
Lemma version_entry_spec_witness :
  dict_get full_container_result "version" = Some (PStr ".0").
Proof.
  apply (proj1 (version_entry_spec (rt := reference_runtime)
                  (one_file full_container) "data.qpdata" full_container
                  full_container_result eq_refl eq_refl) 21%nat).
  - reflexivity.
  - apply (find_found full_container [x74] 19 21 eq_refl). discriminate.
Defined.

(** X4 on [long_integer]: the key is first read at offset 1, the marker at
    5016, and the exception of [json.loads] is the exception of the parse. *)
Lemma parse_outcome_by_key_witness :
  parse_qpdata (rt := reference_runtime) (one_file long_integer) "data.qpdata" =
  Raise (ValueError "Exceeds the limit (4300 digits) for integer string conversion").
Proof.
  apply (proj2 (proj2 (parse_outcome_by_key (rt := reference_runtime)
                         (one_file long_integer) "data.qpdata" long_integer eq_refl))
           1%nat (Z.to_nat 5016)).
  - apply Nat.lt_0_1.
  - apply (find_found long_integer json_pattern 0 1); [vm_compute; reflexivity | discriminate].
  - apply (find_found long_integer stream_marker 1 5016);
      [vm_compute; reflexivity | discriminate].
  - vm_compute. reflexivity.
Defined.

(** X5 on [short_container], whose nineteen bytes are one run. *)
Lemma raw_strings_are_maximal_runs_witness :
  exists strs,
    dict_get short_container_result "raw_strings" = Some (PList (map PStr strs)) /\
    (List.length strs <= 30)%nat /\
    Forall (fun text => (10 <= String.length text)%nat /\
                        maximal_run short_container (list_byte_of_string text)) strs.
Proof.
  apply (raw_strings_are_maximal_runs (rt := reference_runtime)
           (one_file short_container) "data.qpdata" short_container
           short_container_result); reflexivity.
Defined.

(** X6 on [short_container], whose JSON text does not load. *)
Lemma metadata_raw_only_without_metadata_witness :
  dict_get short_container_result "metadata" = Some PNone /\
  exists s e,
    (exists msg,
       json_loads (Runtime := reference_runtime)
         (json_text (rt := reference_runtime) short_container s e) =
       Raise (JSONDecodeError msg)) /\
    PStr (string_of_list_byte (json_pattern ++ b "}")%list) =
      PStr (take 500 (json_text (rt := reference_runtime) short_container s e)) /\
    (String.length (take 500 (json_text (rt := reference_runtime) short_container s e))
     <= 500)%nat.
Proof.
  apply (metadata_raw_only_without_metadata (rt := reference_runtime)
           (one_file short_container) "data.qpdata" short_container
           short_container_result); reflexivity.
Defined.

(** X7 on [short_container]: the decoder is started at offset 18. *)
Lemma decoder_started_on_space_witness :
  loads (snd (parse_run (rt := reference_runtime) (one_file short_container)
                "data.qpdata")) = [18] /\
  4 <= 18 /\
  nth_error short_container (Z.to_nat 18) = Some x20 /\
  nth_error short_container (Z.to_nat 18 - 3) = Some x7d.
Proof.
  apply (decoder_started_on_space (rt := reference_runtime)
           (one_file short_container) "data.qpdata" short_container 18).
  - reflexivity.
  - left. reflexivity.
Defined.

(** X8 on [full_container], with the reference decoder. *)
Lemma hierarchy_never_decoded_witness :
  dict_get full_container_result "hierarchy" = Some PNone.
Proof.
  apply (hierarchy_never_decoded (rt := reference_runtime)
           (one_file full_container) "data.qpdata" full_container_result).
  - exact reference_decoder_checks_magic.
  - reflexivity.
Defined.

(** X9 on a node with three fields, two of them recognised. *)
Lemma attributes_are_recognised_fields_in_order_witness :
  attributes (extract_annotation_info (rt := reference_runtime)
                (PObj "qupath.lib.objects.PathAnnotationObject"
                   [("name", PStr "tumor"); ("id", PInt 3); ("pathClass", PNone)])) =
  [("name", "tumor"); ("pathClass", "None")].
Proof.
  apply (attributes_are_recognised_fields_in_order (rt := reference_runtime)
           (PObj "qupath.lib.objects.PathAnnotationObject"
              [("name", PStr "tumor"); ("id", PInt 3); ("pathClass", PNone)])).
  repeat constructor; simpl; intuition discriminate.
Defined.

(** X10 on a root whose [annotations] is a number and whose [map] has an
    annotation. *)
Lemma uniterable_annotations_yield_nothing_witness :
  extract_annotations (rt := reference_runtime)
    (PObj "Hierarchy" [("annotations", PInt 3);
                       ("map", PDict [(PStr "annotation", PInt 1)])]) = Ok [].
Proof.
  apply (uniterable_annotations_yield_nothing (rt := reference_runtime)
           _ (PInt 3) (TypeError "object is not iterable")); reflexivity.
Defined.

(** X11 on a root with two annotations and a [map] that is a number. *)
Lemma bad_map_keeps_annotation_records_witness :
  extract_annotations (rt := reference_runtime)
    (PObj "Hierarchy" [("annotations", PList [PInt 1; PStr "a"]); ("map", PInt 0)]) =
  Ok (map (extract_annotation_info (rt := reference_runtime)) [PInt 1; PStr "a"]).
Proof.
  apply (bad_map_keeps_annotation_records (rt := reference_runtime)
           _ (PList [PInt 1; PStr "a"]) (PInt 0) [PInt 1; PStr "a"]
           (AttributeError "items")); reflexivity.
Defined.

(** X12 on image 7 of [sample_project]. *)
Lemma entry_has_error_or_parsed_data_witness :
  (dict_has sample_entry "data_path" = true ->
   xorb (dict_has sample_entry "error") (dict_has sample_entry "parsed_data") = true /\
   dict_has sample_entry "classes" = dict_has sample_entry "parsed_data") /\
  (dict_has sample_entry "data_path" = false ->
   dict_has sample_entry "error" = false /\ dict_has sample_entry "parsed_data" = false /\
   dict_has sample_entry "classes" = false /\ dict_has sample_entry "metadata" = false).
Proof.
  apply (entry_has_error_or_parsed_data (rt := reference_runtime)
           sample_project "proj/data" (PDict []) false 1 (image_with_id 7) sample_entry).
  reflexivity.
Defined.

(** X13 on image 9 of [mixed_project], which has no [data.qpdata]. *)
Lemma parse_exception_is_recorded_witness :
  dict_get entry_9 "error" = Some (PStr "File not found: proj/data/9/data.qpdata") /\
  dict_get entry_9 "parsed_data" = None /\
  dict_get entry_9 "metadata" = None.
Proof.
  apply (parse_exception_is_recorded (rt := reference_runtime)
           mixed_project "proj/data" (PDict []) false 2 (image_with_id 9) entry_9
           "proj/data/9/data.qpdata"
           (FileNotFoundError "File not found: proj/data/9/data.qpdata"));
    reflexivity.
Defined.

(** X14 on image 3 of [mixed_project], taken first. *)
Lemma metadata_only_for_first_image_witness :
  (1 = 1 \/ false = true) /\
  truthy (PDict [(PStr "dataVersion", PInt 1)]) = true /\
  exists qpdata_path parsed_data,
    dict_get entry_3 "data_path" = Some (PStr qpdata_path) /\
    parse_qpdata (rt := reference_runtime) mixed_project qpdata_path = Ok parsed_data /\
    dict_get parsed_data "metadata" = Some (PDict [(PStr "dataVersion", PInt 1)]).
Proof.
  apply (metadata_only_for_first_image (rt := reference_runtime)
           mixed_project "proj/data" (PDict []) false 1 (image_with_id 3) entry_3);
    reflexivity.
Defined.

(** X15 on image 5 of [mixed_project], between images 3 and 9. *)
Lemma unreadable_summary_stops_the_loop_witness :
  get_qupath_info_loop (rt := reference_runtime) mixed_project "proj/data" (PDict [])
    false 2 [image_with_id 5; image_with_id 9] [entry_3] =
    (Raise (JSONDecodeError "Expecting value"), [entry_3]) \/
  exists server_builder e',
    py_getitem (image_with_id 5) "serverBuilder" = Ok server_builder /\
    py_get_or server_builder "uri" (PStr "Unknown") = Raise e' /\
    get_qupath_info_loop (rt := reference_runtime) mixed_project "proj/data" (PDict [])
      false 2 [image_with_id 5; image_with_id 9] [entry_3] = (Raise e', [entry_3]).
Proof.
  apply (unreadable_summary_stops_the_loop (rt := reference_runtime)
           mixed_project "proj/data" (PDict []) false 2 (image_with_id 5) (PInt 5)
           [image_with_id 9] [entry_3] (b "oops")); reflexivity.
Defined.

(** X16 on [whole_project]. *)
Lemma one_entry_per_image_witness :
  exists content data listed images,
    read_file whole_project (path_join "proj" "project.qpproj") = Ok content /\
    json_load (Runtime := project_runtime) content = Ok data /\
    py_get_or data "images" (PList []) = Ok listed /\
    py_iter listed = Ok images /\
    List.length [sample_entry; [("entryID", PInt 8)]] = List.length images /\
    Forall2 (fun image entry =>
               (py_in "entryID" image = Ok false /\ dict_get entry "entryID" = None) \/
               (exists entryID, py_getitem image "entryID" = Ok entryID /\
                                dict_get entry "entryID" = Some entryID))
            images [sample_entry; [("entryID", PInt 8)]].
Proof.
  apply (one_entry_per_image (rt := project_runtime) setitem_by_name
           whole_project "proj" false).
  reflexivity.
Defined.


(** X18 on [empty_project]. *)
Lemma manifest_without_images_witness :
  get_qupath_info (rt := reference_runtime) setitem_by_name empty_project "proj" false =
  Ok [].
Proof.
  apply (manifest_without_images (rt := reference_runtime) setitem_by_name
           empty_project "proj" false [] [(PStr "dataVersion", PInt 1)]
           (list_byte_of_string sample_json_text)); reflexivity.
Defined.

(** C4 (amended) on image 7 of [sample_project], whose decode fails at
    offset 18: the entry has [has_hierarchy] false and no [error]. *)
Lemma C4_witness :
  py_getitem (PDict [(PStr "has_metadata", PBool false);
                     (PStr "has_hierarchy", PBool false);
                     (PStr "version", PNone)]) "has_hierarchy" = Ok (PBool false) /\
  dict_get sample_entry "error" = None.
Proof.
  apply (proj1 (proj2 (C4_decode_failure_leaves_no_trace (rt := reference_runtime)
                         (fun _ _ => Ok PNone)
                         sample_project "proj/data" (PDict []) false 1 sample_images []))
           (PDict [(PStr "entryID", PInt 7)]) sample_entry "proj/data/7/data.qpdata"
           short_container 18 (LibraryError "Desync")
           (PDict [(PStr "has_metadata", PBool false);
                   (PStr "has_hierarchy", PBool false);
                   (PStr "version", PNone)]));
    try reflexivity.
  left. reflexivity.
Defined.
